(** * HCS ad generator (fbads.py): a shallow embedding and its properties

    The script turns a narration text into a vertical video ad in three
    stages: text-to-speech over HTTP ([generate_audio]), a Wav2Lip
    subprocess ([generate_lip_synced_video]) and a moviepy composition
    ([create_benefit_slides]); [generate_ad] chains the three and [main]
    is the menu loop around it.

    Modelling choices.
    - A Python [str] is the list of its code points ([list N]); [lit]
      turns an ASCII literal into one.
    - The script is effectful.  Its effects are threaded through a
      [World]: the filesystem (a finite map from paths to contents), the
      lines still to be read on standard input, the answers the two
      external services will give (in call order), and the trace of the
      external interactions performed so far.  A computation is a function
      [World -> Result A * World]; an exception keeps the effects that
      happened before it, as in Python.
    - The filesystem is flat and keyed by the spelling of a path: a
      spelling names a file or nothing, and two spellings of one path
      ([output/a] and [output/./a]) are two keys.  Which spellings name the
      same file is told apart from the map, by [normpath].  Directories are
      not modelled ([os.makedirs] at import time has no counterpart).
    - Writing a file and encoding a video always succeed: the model covers
      the runs in which the paths can be written to and the media engine
      works.  A statement that a file has been written is therefore a
      statement about such runs; the statements about what the script
      attempts, in which order, and about its own errors do not depend on
      it.
    - An external service is the list of the answers it will give: the
      n-th call gets the n-th answer, and a call past the end of the list
      gets none ([requests.post] raises a connection error, the process
      cannot be spawned).  A finished process may have changed any file.
    - moviepy clips are kept symbolic: a clip is the term that built it.
    - [calls] is a ghost component of the world: [generate_ad] records
      its arguments there, so that statements can speak of its
      invocations.
    - Console output ([print] and the prompt of [input]) is not modelled. *)

From Stdlib Require Import ZArith QArith String Ascii List DecimalString.
From stdpp Require Import base option list gmap.

Local Open Scope Z_scope.
Set Warnings "-register-all".

(** ** Python strings *)

Abbreviation str := (list N).

Definition lit (s : string) : str :=
  map N_of_ascii (list_ascii_of_string s).

(** [str(n)] for an [int]. *)
Definition str_of_int (n : Z) : str :=
  lit (NilZero.string_of_int (Z.to_int n)).

(** [s.startswith(c)] and [s.endswith(c)] for a one-character [c]. *)
Definition startswith_char (c : N) (s : str) : bool :=
  match s with
  | [] => false
  | x :: _ => N.eqb x c
  end.

Definition endswith_char (c : N) (s : str) : bool :=
  startswith_char c (rev s).

(** The characters for which [str.isspace] holds. *)
Definition isspace (c : N) : bool :=
  ((9 <=? c) && (c <=? 13) || (28 <=? c) && (c <=? 32)
   || (c =? 133) || (c =? 160) || (c =? 5760)
   || (8192 <=? c) && (c <=? 8202)
   || (c =? 8232) || (c =? 8233) || (c =? 8239) || (c =? 8287)
   || (c =? 12288))%N.

Fixpoint lstrip (s : str) : str :=
  match s with
  | [] => []
  | c :: s' => if isspace c then lstrip s' else s
  end.

Definition rstrip (s : str) : str := rev (lstrip (rev s)).

(** [s.strip()] *)
Definition strip (s : str) : str := rstrip (lstrip s).

(** [s.split(sep)] for a one-character separator: never empty. *)
Fixpoint split (sep : N) (s : str) : list str :=
  match s with
  | [] => [[]]
  | c :: s' =>
      if N.eqb c sep then [] :: split sep s'
      else match split sep s' with
           | [] => [[c]]
           | w :: ws => (c :: w) :: ws
           end
  end.

(** [posixpath.join(a, *p)] *)
Definition slash : N := 47%N.

Definition join_step (path b : str) : str :=
  if startswith_char slash b then b
  else if (bool_decide (path = []) || endswith_char slash path)%bool then path ++ b
  else path ++ slash :: b.

Definition os_path_join (a : str) (p : list str) : str :=
  fold_left join_step p a.

(** ** moviepy clips, kept symbolic *)

Inductive AudioTrack :=
| FileAudio (filename : str)
| CompositeAudio (tracks : list AudioTrack).

Record TextSpec := {
  txt : str;
  fontsize : Z;
  font : str;
  color : str;
  size : Z * Z;
  method : str;
  align : str;
  duration : option Z;
  position : option str
}.

Inductive Clip :=
| FileClip (filename : str) (fsize : Z * Z) (has_audio : bool)
| TextSlide (t : TextSpec)
| Concat (clips : list Clip) (cmethod : str)
| WithAudio (c : Clip) (a : option AudioTrack).

(** [TextClip(text, fontsize=, font=, color=, size=, method=, align=)] *)
Definition TextClip (text : str) (fontsize : Z) (font color : str)
    (size : Z * Z) (method align : str) : TextSpec :=
  {| txt := text; fontsize := fontsize; font := font; color := color;
     size := size; method := method; align := align;
     duration := None; position := None |}.

Definition set_duration (d : Z) (t : TextSpec) : TextSpec :=
  {| txt := txt t; fontsize := fontsize t; font := font t; color := color t;
     size := size t; method := method t; align := align t;
     duration := Some d; position := position t |}.

Definition set_position (p : str) (t : TextSpec) : TextSpec :=
  {| txt := txt t; fontsize := fontsize t; font := font t; color := color t;
     size := size t; method := method t; align := align t;
     duration := duration t; position := Some p |}.

(** [clip.audio]: a text clip has none; a concatenation has the composite
    of its members' tracks, or none when no member has one. *)
Fixpoint clip_audio (c : Clip) : option AudioTrack :=
  match c with
  | FileClip f _ a => if a then Some (FileAudio f) else None
  | TextSlide _ => None
  | Concat cs _ =>
      let tracks :=
        (fix go (l : list Clip) : list AudioTrack :=
           match l with
           | [] => []
           | x :: l' =>
               match clip_audio x with
               | Some a => a :: go l'
               | None => go l'
               end
           end) cs in
      match tracks with
      | [] => None
      | _ :: _ => Some (CompositeAudio tracks)
      end
  | WithAudio _ a => a
  end.

(** [clip.size]: the composition is as wide and as high as its largest
    member. *)
Fixpoint clip_size (c : Clip) : Z * Z :=
  match c with
  | FileClip _ s _ => s
  | TextSlide t => size t
  | Concat cs _ =>
      (fix go (l : list Clip) : Z * Z :=
         match l with
         | [] => (0, 0)
         | x :: l' =>
             (Z.max (fst (clip_size x)) (fst (go l')),
              Z.max (snd (clip_size x)) (snd (go l')))
         end) cs
  | WithAudio c' _ => clip_size c'
  end.

Definition set_audio (a : option AudioTrack) (c : Clip) : Clip := WithAudio c a.

Definition concatenate_videoclips (clips : list Clip) (method : str) : Clip :=
  Concat clips method.

(** The visual timeline of a clip: its leaf segments, in playing order. *)
Fixpoint segments (c : Clip) : list Clip :=
  match c with
  | FileClip _ _ _ => [c]
  | TextSlide _ => [c]
  | Concat cs _ =>
      (fix go (l : list Clip) : list Clip :=
         match l with
         | [] => []
         | x :: l' => segments x ++ go l'
         end) cs
  | WithAudio c' _ => segments c'
  end.

(** ** The world the script runs in *)

Inductive FileData :=
| RawBytes (content : list N)
| RenderedVideo (vsize : Z * Z) (has_audio : bool)
| EncodedVideo (clip : Clip) (fps : Z).

Record Response := {
  status_code : Z;
  resp_text : str;
  content : list N
}.

Record VoiceSettings := {
  stability : Q;
  similarity_boost : Q
}.

Record Payload := {
  p_text : str;
  voice_settings : VoiceSettings
}.

Record ProcOutcome := {
  returncode : Z;
  effect : gmap str FileData -> gmap str FileData
}.

Inductive Event :=
| EvPost (url : str) (json : Payload) (headers : list (str * str))
| EvWrite (path : str)
| EvSpawn (cmd : list str)
| EvOpenVideo (path : str)
| EvEncode (path : str) (clip : Clip) (fps : Z).

Inductive Exn :=
| RuntimeError (msg : str)
| FileNotFoundError (msg : str)
| CalledProcessError (code : Z) (cmd : list str)
| ConnectionError
| OSError (path : str)
| EOFError.

Record World := {
  fs : gmap str FileData;
  stdin : list str;
  tts_answers : list Response;
  proc_outcomes : list ProcOutcome;
  trace : list Event;
  calls : list (str * list str * str)
}.

Inductive Result (A : Type) :=
| Ok (a : A)
| Raise (e : Exn).
Arguments Ok {A} a.
Arguments Raise {A} e.

Definition M (A : Type) : Type := World -> Result A * World.

Definition ret {A} (a : A) : M A := fun w => (Ok a, w).

Definition raise {A} (e : Exn) : M A := fun w => (Raise e, w).

Definition bind {A B} (m : M A) (k : A -> M B) : M B :=
  fun w =>
    match m w with
    | (Ok a, w') => k a w'
    | (Raise e, w') => (Raise e, w')
    end.

Notation "x <- m ;; k" := (bind m (fun x => k))
  (at level 90, m at level 80, right associativity).
Notation "m ;;; k" := (bind m (fun _ => k))
  (at level 90, right associativity).

Definition emit (e : Event) : M unit := fun w =>
  (Ok tt, {| fs := fs w; stdin := stdin w; tts_answers := tts_answers w;
             proc_outcomes := proc_outcomes w; trace := trace w ++ [e];
             calls := calls w |}).

Definition set_fs (f : gmap str FileData -> gmap str FileData) : M unit := fun w =>
  (Ok tt, {| fs := f (fs w); stdin := stdin w; tts_answers := tts_answers w;
             proc_outcomes := proc_outcomes w; trace := trace w;
             calls := calls w |}).

Definition log_call (c : str * list str * str) : M unit := fun w =>
  (Ok tt, {| fs := fs w; stdin := stdin w; tts_answers := tts_answers w;
             proc_outcomes := proc_outcomes w; trace := trace w;
             calls := calls w ++ [c] |}).

(** [requests.post(url, json=, headers=)]: the service's next answer, or a
    connection error when it gives none. *)
Definition requests_post (url : str) (json : Payload)
    (headers : list (str * str)) : M Response := fun w =>
  let w1 := {| fs := fs w; stdin := stdin w;
               tts_answers := tl (tts_answers w);
               proc_outcomes := proc_outcomes w;
               trace := trace w ++ [EvPost url json headers];
               calls := calls w |} in
  match tts_answers w with
  | [] => (Raise ConnectionError, w1)
  | r :: _ => (Ok r, w1)
  end.

(** [with open(path, "wb") as f: f.write(data)] *)
Definition write_file (path : str) (data : list N) : M unit :=
  emit (EvWrite path) ;;;
  set_fs (fun m => <[path := RawBytes data]> m).

(** [os.path.exists(path)] *)
Definition os_path_exists (path : str) : M bool := fun w =>
  (Ok (bool_decide (is_Some (fs w !! path))), w).

(** [subprocess.run(cmd, check=True)]: the process runs to its end, does
    what it does to the files, and a non-zero exit status is an error. *)
Definition subprocess_run (cmd : list str) : M unit := fun w =>
  let w1 o := {| fs := o (fs w); stdin := stdin w;
                 tts_answers := tts_answers w;
                 proc_outcomes := tl (proc_outcomes w);
                 trace := trace w ++ [EvSpawn cmd];
                 calls := calls w |} in
  match proc_outcomes w with
  | [] => (Raise (OSError (hd [] cmd)), w1 id)
  | o :: _ =>
      if returncode o =? 0 then (Ok tt, w1 (effect o))
      else (Raise (CalledProcessError (returncode o) cmd), w1 (effect o))
  end.

(** [VideoFileClip(path)]: opens a video file for reading. *)
Definition VideoFileClip (path : str) : M Clip :=
  emit (EvOpenVideo path) ;;;
  fun w =>
    match fs w !! path with
    | Some (RenderedVideo s a) => (Ok (FileClip path s a), w)
    | Some (EncodedVideo c _) =>
        (Ok (FileClip path (clip_size c)
               (bool_decide (is_Some (clip_audio c)))), w)
    | Some (RawBytes _) | None => (Raise (OSError path), w)
    end.

(** [clip.write_videofile(path, fps=)] *)
Definition write_videofile (c : Clip) (path : str) (fps : Z) : M unit :=
  emit (EvEncode path c fps) ;;;
  set_fs (fun m => <[path := EncodedVideo c fps]> m).

(** [input()]: the next line of standard input, [EOFError] at its end. *)
Definition input : M str := fun w =>
  match stdin w with
  | [] => (Raise EOFError, w)
  | l :: ls =>
      (Ok l, {| fs := fs w; stdin := ls; tts_answers := tts_answers w;
                proc_outcomes := proc_outcomes w; trace := trace w;
                calls := calls w |})
  end.

(** ** The script *)

Definition ELEVENLABS_API_KEY : str :=
  lit "sk_55bb280a58baa1308015d462f622c89e7c596727589c750f".
Definition VOICE_ID : str := lit "9BWtsMINqrJLrRacOk9x".
Definition SPOKESPERSON_IMAGE : str := lit "spokesperson.jpg".
Definition WAV2LIP_PATH : str := lit "Wav2Lip".
Definition OUTPUT_DIR : str := lit "output".
Definition VIDEO_SIZE : Z * Z := (720, 1280).

Definition generate_audio (text output_path : str) : M str :=
  let url := lit "https://api.elevenlabs.io/v1/text-to-speech/" ++ VOICE_ID in
  let headers :=
    [(lit "Content-Type", lit "application/json");
     (lit "xi-api-key", ELEVENLABS_API_KEY)] in
  let payload :=
    {| p_text := text;
       voice_settings :=
         {| stability := 7 # 10; similarity_boost := 75 # 100 |} |} in
  resp <- requests_post url payload headers ;;
  (if status_code resp =? 200 then
     write_file output_path (content resp)
   else
     raise (RuntimeError
              (lit "ElevenLabs TTS failed: " ++ str_of_int (status_code resp)
               ++ lit " " ++ resp_text resp))) ;;;
  ret output_path.

Definition generate_lip_synced_video (audio_path image_path output_path : str)
    : M str :=
  let checkpoint :=
    os_path_join WAV2LIP_PATH [lit "checkpoints"; lit "wav2lip_gan.pth"] in
  ex <- os_path_exists checkpoint ;;
  (if negb ex then
     raise (FileNotFoundError
              (lit "Place wav2lip_gan.pth into Wav2Lip/checkpoints/ first."))
   else ret tt) ;;;
  let cmd :=
    [lit "python";
     os_path_join WAV2LIP_PATH [lit "inference.py"];
     lit "--checkpoint_path"; checkpoint;
     lit "--face"; image_path;
     lit "--audio"; audio_path;
     lit "--outfile"; output_path] in
  subprocess_run cmd ;;;
  ret output_path.

(** The body of the [for] loop of [create_benefit_slides]. *)
Definition benefit_clip (video_clip : Clip) (text : str) : Clip :=
  TextSlide
    (set_position (lit "center")
       (set_duration 3
          (TextClip text 48 (lit "Arial-Bold") (lit "white")
             (clip_size video_clip) (lit "caption") (lit "center")))).

Definition cta_clip (video_clip : Clip) (phone_number : str) : Clip :=
  let cta_text := lit "Call Now: " ++ phone_number in
  TextSlide
    (set_position (lit "center")
       (set_duration 4
          (TextClip cta_text 60 (lit "Arial-Bold") (lit "yellow")
             (clip_size video_clip) (lit "caption") (lit "center")))).

(** [slide_clips] when the composition starts: one [append] per benefit,
    then the call-to-action clip. *)
Definition slide_clips (video_clip : Clip) (benefit_texts : list str)
    (phone_number : str) : list Clip :=
  let slide_clips :=
    fold_left (fun acc text => acc ++ [benefit_clip video_clip text])
      benefit_texts [] in
  slide_clips ++ [cta_clip video_clip phone_number].

Definition final_clip (video_clip : Clip) (benefit_texts : list str)
    (phone_number : str) : Clip :=
  let slides_concat :=
    concatenate_videoclips (slide_clips video_clip benefit_texts phone_number)
      (lit "compose") in
  concatenate_videoclips
    [video_clip; set_audio (clip_audio video_clip) slides_concat]
    (lit "compose").

Definition create_benefit_slides (video_clip : Clip) (benefit_texts : list str)
    (phone_number output_path : str) : M str :=
  let final := final_clip video_clip benefit_texts phone_number in
  write_videofile final output_path 24 ;;;
  ret output_path.

(** *** Pre-set templates and benefits *)

Definition ACA_TEMPLATE : str :=
  lit "Hello! I'm excited to share that you may qualify for a health insurance plan with $0 monthly premiums, "
  ++ lit "thanks to new government subsidies under the Affordable Care Act. These plans can include dental, vision, "
  ++ lit "and prescription coverage " ++ [8212%N]
  ++ lit " all at no cost if you qualify. The enrollment is fast and easy "
  ++ [8212%N] ++ lit " it takes just 5 minutes. "
  ++ lit "Call us now at (561) 576-0801 to check your eligibility and get covered today!".

Definition FE_TEMPLATE : str :=
  lit "Hi there! Looking for affordable final expense coverage? We offer guaranteed-issue plans with no medical exams, "
  ++ lit "and competitive rates starting at just $20 a month. Your loved ones get peace of mind, and you get burial, funeral, "
  ++ lit "and final expenses covered. Call (561) 576-0801 now to enroll in minutes, and secure your family"
  ++ [8217%N] ++ lit "s future today!".

Definition ACA_BENEFITS : list str :=
  [lit "$0 Health Plans " ++ [8211%N] ++ lit " ACA Subsidies";
   lit "Dental, Vision & Prescriptions Included";
   lit "Fast 5-Minute Enrollment"].

Definition FE_BENEFITS : list str :=
  [lit "Guaranteed Issue " ++ [8211%N] ++ lit " No Exam Required";
   lit "Rates Start at $20/Month";
   lit "Covers Burial & Funeral Costs"].

(** *** The pipeline *)

Definition audio_path (output_prefix : str) : str :=
  os_path_join OUTPUT_DIR [output_prefix ++ lit "_audio.wav"].

Definition lip_video_path (output_prefix : str) : str :=
  os_path_join OUTPUT_DIR [output_prefix ++ lit "_lip.mp4"].

Definition final_output (output_prefix : str) : str :=
  os_path_join OUTPUT_DIR [output_prefix ++ lit "_final.mp4"].

(** [calls] is a ghost record of the invocations of [generate_ad]; the
    script itself keeps none. *)
Definition generate_ad (template_text : str) (benefit_list : list str)
    (output_prefix : str) : M unit :=
  log_call (template_text, benefit_list, output_prefix) ;;;
  generate_audio template_text (audio_path output_prefix) ;;;
  generate_lip_synced_video (audio_path output_prefix) SPOKESPERSON_IMAGE
    (lip_video_path output_prefix) ;;;
  lip_clip <- VideoFileClip (lip_video_path output_prefix) ;;
  create_benefit_slides lip_clip benefit_list (lit "(561) 576-0801")
    (final_output output_prefix) ;;;
  ret tt.

(** *** The menu *)

Definition show_menu : M str :=
  choice <- input ;;
  ret (strip choice).

Definition DEFAULT_BENEFITS : list str :=
  [lit "Affordable Coverage Available"; lit "Call Now: (561) 576-0801"].

(** [[b.strip() for b in bullets if b.strip()]] *)
Definition stripped_bullets (bullets : list str) : list str :=
  map strip (filter (fun b => strip b <> []) bullets).

Definition comma : N := 44%N.

(** One turn of the [while True] loop of [main]: [true] to go round
    again, [false] on [break]. *)
Definition menu_turn : M bool :=
  choice <- show_menu ;;
  if bool_decide (choice = lit "1") then
    generate_ad ACA_TEMPLATE ACA_BENEFITS (lit "aca_ad") ;;; ret true
  else if bool_decide (choice = lit "2") then
    generate_ad FE_TEMPLATE FE_BENEFITS (lit "fe_ad") ;;; ret true
  else if bool_decide (choice = lit "3") then
    line <- input ;;
    let custom_text := strip line in
    line2 <- input ;;
    let bullets := split comma line2 in
    let benefit_list := stripped_bullets bullets in
    let benefit_list :=
      if bool_decide (benefit_list = []) then DEFAULT_BENEFITS
      else benefit_list in
    generate_ad custom_text benefit_list (lit "custom_ad") ;;; ret true
  else if bool_decide (choice = lit "4") then
    ret false
  else
    ret true.

(** [main]: the loop, unrolled at most [fuel] times; [None] when the
    fuel runs out before the loop ends. *)
Fixpoint main_loop (fuel : nat) (w : World) : option (Result unit) * World :=
  match fuel with
  | O => (None, w)
  | S fuel' =>
      match menu_turn w with
      | (Ok true, w') => main_loop fuel' w'
      | (Ok false, w') => (Some (Ok tt), w')
      | (Raise e, w') => (Some (Raise e), w')
      end
  end.

(** Every turn reads a line, so the loop ends within one turn more than
    there are lines on standard input. *)
Definition main (w : World) : option (Result unit) * World :=
  main_loop (S (length (stdin w))) w.

(** * Vocabulary of the statements *)

(** The text a slide shows. *)
Definition slide_text (c : Clip) : option str :=
  match c with TextSlide t => Some (txt t) | _ => None end.

Definition is_text (c : Clip) : Prop :=
  match c with TextSlide _ => True | _ => False end.

(** The request [generate_audio] sends for a narration text. *)
Definition tts_request (text : str) : Event :=
  EvPost (lit "https://api.elevenlabs.io/v1/text-to-speech/" ++ VOICE_ID)
    {| p_text := text;
       voice_settings :=
         {| stability := 7 # 10; similarity_boost := 75 # 100 |} |}
    [(lit "Content-Type", lit "application/json");
     (lit "xi-api-key", ELEVENLABS_API_KEY)].

Definition tts_error (resp : Response) : Exn :=
  RuntimeError
    (lit "ElevenLabs TTS failed: " ++ str_of_int (status_code resp)
     ++ lit " " ++ resp_text resp).

(** The world once the request has been sent. *)
Definition after_post (text : str) (w : World) : World :=
  {| fs := fs w; stdin := stdin w; tts_answers := tl (tts_answers w);
     proc_outcomes := proc_outcomes w;
     trace := trace w ++ [tts_request text]; calls := calls w |}.

Definition after_audio (text path : str) (data : list N) (w : World) : World :=
  {| fs := <[path := RawBytes data]> (fs w); stdin := stdin w;
     tts_answers := tl (tts_answers w);
     proc_outcomes := proc_outcomes w;
     trace := trace w ++ [tts_request text; EvWrite path]; calls := calls w |}.

Definition checkpoint : str := lit "Wav2Lip/checkpoints/wav2lip_gan.pth".

Definition wav2lip_cmd (audio_path image_path output_path : str) : list str :=
  [lit "python"; lit "Wav2Lip/inference.py";
   lit "--checkpoint_path"; checkpoint;
   lit "--face"; image_path;
   lit "--audio"; audio_path;
   lit "--outfile"; output_path].

Definition after_spawn (cmd : list str)
    (o : gmap str FileData -> gmap str FileData) (w : World) : World :=
  {| fs := o (fs w); stdin := stdin w; tts_answers := tts_answers w;
     proc_outcomes := tl (proc_outcomes w);
     trace := trace w ++ [EvSpawn cmd]; calls := calls w |}.

(** [grows proj P m]: running [m] only appends to the list [proj] of the
    world, and what it appends satisfies [P].  [keeps proj m]: running
    [m] leaves the component [proj] alone. *)
Definition grows {X A} (proj : World -> list X) (P : X -> Prop) (m : M A) : Prop :=
  forall w, exists new, proj (snd (m w)) = proj w ++ new /\ Forall P new.

Definition keeps {X A} (proj : World -> X) (m : M A) : Prop :=
  forall w, proj (snd (m w)) = proj w.

(** What [generate_ad] may do to the outside for a benefit list and an
    output prefix. *)
Definition ad_event (b : list str) (p : str) (e : Event) : Prop :=
  match e with
  | EvPost _ _ _ => True
  | EvWrite path => path = audio_path p
  | EvSpawn cmd =>
      cmd = wav2lip_cmd (audio_path p) SPOKESPERSON_IMAGE (lip_video_path p)
  | EvOpenVideo path => path = lip_video_path p
  | EvEncode path c fps =>
      path = final_output p /\ fps = 24 /\
      exists f s a, c = final_clip (FileClip f s a) b (lit "(561) 576-0801")
  end.

Definition logged (c : str * list str * str) (w : World) : World :=
  {| fs := fs w; stdin := stdin w; tts_answers := tts_answers w;
     proc_outcomes := proc_outcomes w; trace := trace w;
     calls := calls w ++ [c] |}.

Definition artifact_paths (output_prefix : str) : list str :=
  [audio_path output_prefix; lip_video_path output_prefix;
   final_output output_prefix].

(** The path an event writes to, if it writes. *)
Definition written_path (e : Event) : option str :=
  match e with
  | EvWrite path => Some path
  | EvEncode path _ _ => Some path
  | _ => None
  end.

(** [benefit_list] as the custom entry of the menu computes it from the
    line of bullets. *)
Definition custom_benefits (line : str) : list str :=
  if bool_decide (stripped_bullets (split comma line) = [])
  then DEFAULT_BENEFITS
  else stripped_bullets (split comma line).

(** The invocations of [generate_ad] the menu can make. *)
Definition menu_call (c : str * list str * str) : Prop :=
  c = (ACA_TEMPLATE, ACA_BENEFITS, lit "aca_ad") \/
  c = (FE_TEMPLATE, FE_BENEFITS, lit "fe_ad") \/
  exists script line, c = (strip script, custom_benefits line, lit "custom_ad").

(** An event that encodes a video shows the fixed call to action last. *)
Definition shows_fixed_cta (e : Event) : Prop :=
  match e with
  | EvEncode _ c _ =>
      slide_text <$> last (segments c) = Some (Some (lit "Call Now: (561) 576-0801"))
  | _ => True
  end.

Definition tts_ok : Response :=
  {| status_code := 200; resp_text := []; content := [82; 73; 70; 70]%N |}.

Definition tts_unauthorized : Response :=
  {| status_code := 401; resp_text := lit "Unauthorized";
     content := lit "Unauthorized" |}.

(** A Wav2Lip run that succeeds and leaves the clip of a prefix behind. *)
Definition wav2lip_ok (prefix : str) : ProcOutcome :=
  {| returncode := 0;
     effect := fun m => <[lip_video_path prefix := RenderedVideo VIDEO_SIZE true]> m |}.

(** A fresh world: the checkpoint is installed, nothing has happened. *)
Definition studio (lines : list str) (answers : list Response)
    (outcomes : list ProcOutcome) : World :=
  {| fs := {[checkpoint := RawBytes []]}; stdin := lines;
     tts_answers := answers; proc_outcomes := outcomes;
     trace := []; calls := [] |}.

(** The segments of the video found at a path. *)
Definition artifact_timeline (w : World) (path : str) : option (list Clip) :=
  match fs w !! path with
  | Some (EncodedVideo c _) => Some (segments c)
  | _ => None
  end.

(** [sep.join(pieces)] for a one-character separator. *)
Fixpoint join_with (sep : N) (pieces : list str) : str :=
  match pieces with
  | [] => []
  | x :: xs =>
      match xs with
      | [] => x
      | _ :: _ => x ++ sep :: join_with sep xs
      end
  end.

(** A string that [strip] leaves as it is: no space at either end. *)
Definition trimmed (s : str) : Prop :=
  lstrip s = s /\ lstrip (rev s) = rev s.

(** What [VideoFileClip] can open: a video, rendered or encoded. *)
Definition is_video (d : option FileData) : Prop :=
  match d with
  | Some (RenderedVideo _ _) | Some (EncodedVideo _ _) => True
  | Some (RawBytes _) | None => False
  end.

(** The files once the audio of a run has been saved. *)
Definition fs_with_audio (p : str) (resp : Response) (w : World)
    : gmap str FileData :=
  <[audio_path p := RawBytes (content resp)]> (fs w).

Definition missing_checkpoint : Exn :=
  FileNotFoundError (lit "Place wav2lip_gan.pth into Wav2Lip/checkpoints/ first.").

(** The Wav2Lip command line of a run. *)
Definition render_cmd (p : str) : list str :=
  wav2lip_cmd (audio_path p) SPOKESPERSON_IMAGE (lip_video_path p).

(** A Wav2Lip run that fails with exit status 1 and writes nothing. *)
Definition wav2lip_crash : ProcOutcome :=
  {| returncode := 1; effect := fun m => m |}.

(** A Wav2Lip run that reports success but leaves no clip behind. *)
Definition wav2lip_idle : ProcOutcome :=
  {| returncode := 0; effect := fun m => m |}.

(** How a run of [generate_ad] ends, read off the world it starts in. *)
Definition run_outcome (p : str) (w : World) : Result unit :=
  match tts_answers w with
  | [] => Raise ConnectionError
  | resp :: _ =>
      if status_code resp =? 200 then
        match fs w !! checkpoint with
        | None => Raise missing_checkpoint
        | Some _ =>
            match proc_outcomes w with
            | [] => Raise (OSError (lit "python"))
            | o :: _ =>
                if returncode o =? 0 then
                  match effect o (fs_with_audio p resp w) !! lip_video_path p with
                  | Some (RenderedVideo _ _) | Some (EncodedVideo _ _) => Ok tt
                  | Some (RawBytes _) | None => Raise (OSError (lip_video_path p))
                  end
                else Raise (CalledProcessError (returncode o) (render_cmd p))
            end
        end
      else Raise (tts_error resp)
  end.

(** The files the menu can write. *)
Definition menu_files : list str :=
  [lit "output/aca_ad_audio.wav"; lit "output/aca_ad_final.mp4";
   lit "output/fe_ad_audio.wav"; lit "output/fe_ad_final.mp4";
   lit "output/custom_ad_audio.wav"; lit "output/custom_ad_final.mp4"].

(** The clips the menu can ask Wav2Lip for. *)
Definition menu_clips : list str :=
  [lit "output/aca_ad_lip.mp4"; lit "output/fe_ad_lip.mp4";
   lit "output/custom_ad_lip.mp4"].

(** What the menu may do to the files: write one of [menu_files], or have
    Wav2Lip render one of [menu_clips] from the audio beside it. *)
Definition menu_event (e : Event) : Prop :=
  match e with
  | EvPost _ _ _ => True
  | EvWrite path => path ∈ menu_files
  | EvSpawn cmd =>
      exists p, p ∈ [lit "aca_ad"; lit "fe_ad"; lit "custom_ad"] /\
                cmd = render_cmd p /\ lip_video_path p ∈ menu_clips
  | EvOpenVideo path => path ∈ menu_clips
  | EvEncode path _ fps => path ∈ menu_files /\ fps = 24
  end.

(** [clip.duration]: a concatenation lasts as long as its members
    together; the length of a clip read from a file is not known here. *)
Fixpoint clip_duration (c : Clip) : option Z :=
  match c with
  | FileClip _ _ _ => None
  | TextSlide t => duration t
  | Concat cs _ =>
      (fix go (l : list Clip) : option Z :=
         match l with
         | [] => Some 0
         | x :: l' =>
             match clip_duration x, go l' with
             | Some a, Some b => Some (a + b)
             | _, _ => None
             end
         end) cs
  | WithAudio c' _ => clip_duration c'
  end.

(** The world with other lines left on standard input. *)
Definition with_stdin (ls : list str) (w : World) : World :=
  {| fs := fs w; stdin := ls; tts_answers := tts_answers w;
     proc_outcomes := proc_outcomes w; trace := trace w; calls := calls w |}.

(** A world in which nothing is installed: no checkpoint. *)
Definition bare_studio (answers : list Response)
    (outcomes : list ProcOutcome) : World :=
  {| fs := ∅; stdin := []; tts_answers := answers;
     proc_outcomes := outcomes; trace := []; calls := [] |}.

Definition is_post (e : Event) : bool :=
  match e with EvPost _ _ _ => true | _ => false end.

Definition is_spawn (e : Event) : bool :=
  match e with EvSpawn _ => true | _ => false end.

(** How many events of a kind a list holds. *)
Definition count_events (kind : Event -> bool) (l : list Event) : nat :=
  length (List.filter kind l).

(** [s.startswith(prefix)] *)
Fixpoint startswith (prefix s : str) : bool :=
  match prefix, s with
  | [], _ => true
  | _ :: _, [] => false
  | a :: prefix', b :: s' => N.eqb a b && startswith prefix' s'
  end.

Definition dot : str := lit ".".
Definition dotdot : str := lit "..".

(** One turn of the loop of [posixpath.normpath] over the components. *)
Definition normpath_step (initial_slashes : nat) (new_comps : list str)
    (comp : str) : list str :=
  if (bool_decide (comp = []) || bool_decide (comp = dot))%bool then new_comps
  else if (negb (bool_decide (comp = dotdot))
           || (Nat.eqb initial_slashes 0 && bool_decide (new_comps = []))
           || (negb (bool_decide (new_comps = []))
               && bool_decide (last new_comps = Some dotdot)))%bool
  then new_comps ++ [comp]
  else removelast new_comps.

(** [posixpath.normpath(path)]: the spelling to which every spelling of a
    path reduces.  Where no link is involved, two paths name the same
    file exactly when they have the same normal form. *)
Definition normpath (path : str) : str :=
  if bool_decide (path = []) then dot
  else
    let initial_slashes :=
      if startswith_char slash path then
        if (startswith (lit "//") path && negb (startswith (lit "///") path))%bool
        then 2%nat else 1%nat
      else 0%nat in
    let comps :=
      fold_left (normpath_step initial_slashes) (split slash path) [] in
    let path' := repeat slash initial_slashes ++ join_with slash comps in
    if bool_decide (path' = []) then dot else path'.

(** * Properties *)

(** ** Strings and paths, on examples *)

Example split_bullets :
  split comma (lit "a, b,,c ,") = [lit "a"; lit " b"; []; lit "c "; []].
Proof. reflexivity. Qed.

Example split_empty : split comma [] = [[]].
Proof. reflexivity. Qed.

Example strip_both_ends : strip (lit "  Fast enrollment ") = lit "Fast enrollment".
Proof. reflexivity. Qed.

Example join_relative :
  os_path_join (lit "Wav2Lip") [lit "checkpoints"; lit "wav2lip_gan.pth"]
  = lit "Wav2Lip/checkpoints/wav2lip_gan.pth".
Proof. reflexivity. Qed.

Example join_absolute :
  os_path_join (lit "output") [lit "/tmp/x_audio.wav"] = lit "/tmp/x_audio.wav".
Proof. reflexivity. Qed.

(** ** Clips *)

Lemma append_loop {A B} (f : A -> B) (l : list A) (acc : list B) :
  fold_left (fun acc x => acc ++ [f x]) l acc = acc ++ map f l.
Proof.
  revert acc. induction l as [|x l IH]; intros acc; simpl.
  - now rewrite app_nil_r.
  - rewrite IH, <- app_assoc. reflexivity.
Qed.

Lemma slide_clips_eq vc bs ph :
  slide_clips vc bs ph = map (benefit_clip vc) bs ++ [cta_clip vc ph].
Proof. unfold slide_clips. now rewrite append_loop. Qed.

Lemma segments_Concat cs m :
  segments (Concat cs m) = concat (map segments cs).
Proof. induction cs as [|c cs IH]; simpl in *; [reflexivity | now rewrite IH]. Qed.

Lemma segments_text_slides (cs : list Clip) m :
  Forall is_text cs -> segments (Concat cs m) = cs.
Proof.
  rewrite segments_Concat.
  induction 1 as [|c cs Hc _ IH]; simpl; [reflexivity |].
  destruct c; try contradiction. simpl. now rewrite IH.
Qed.

Lemma audio_text_slides (cs : list Clip) m :
  Forall is_text cs -> clip_audio (Concat cs m) = None.
Proof.
  intros H. simpl.
  replace ((fix go (l : list Clip) : list AudioTrack :=
              match l with
              | [] => []
              | x :: l' =>
                  match clip_audio x with
                  | Some a => a :: go l'
                  | None => go l'
                  end
              end) cs) with (@nil AudioTrack); [reflexivity |].
  induction H as [|c cs Hc _ IH]; [reflexivity |].
  destruct c; try contradiction. exact IH.
Qed.

Lemma slide_clips_text vc bs ph : Forall is_text (slide_clips vc bs ph).
Proof.
  rewrite slide_clips_eq. apply Forall_app. split.
  - apply Forall_forall. intros c Hc. apply list_elem_of_fmap in Hc.
    destruct Hc as (b & -> & _). exact I.
  - repeat constructor.
Qed.

Lemma segments_final_clip vc bs ph :
  segments (final_clip vc bs ph)
  = segments vc ++ map (benefit_clip vc) bs ++ [cta_clip vc ph].
Proof.
  unfold final_clip, concatenate_videoclips, set_audio.
  rewrite segments_Concat. simpl. rewrite app_nil_r.
  change ((fix go (l : list Clip) : list Clip :=
             match l with
             | [] => []
             | x :: l' => segments x ++ go l'
             end) (slide_clips vc bs ph))
    with (segments (Concat (slide_clips vc bs ph) (lit "compose"))).
  rewrite segments_text_slides by apply slide_clips_text.
  now rewrite slide_clips_eq.
Qed.

(** ** The composer *)

Lemma create_benefit_slides_run vc bs ph out w :
  create_benefit_slides vc bs ph out w
  = (Ok out,
     {| fs := <[out := EncodedVideo (final_clip vc bs ph) 24]> (fs w);
        stdin := stdin w; tts_answers := tts_answers w;
        proc_outcomes := proc_outcomes w;
        trace := trace w ++ [EvEncode out (final_clip vc bs ph) 24];
        calls := calls w |}).
Proof. reflexivity. Qed.

(** C1: the final artifact written by [create_benefit_slides] plays the
    talking-head clip first, then one slide per benefit bullet in the order
    of the bullets, each showing its bullet, then the call-to-action slide,
    which shows [Call Now: ] followed by the phone number and is none of
    the benefit slides, and nothing else. *)
Theorem create_benefit_slides_timeline vc bs ph out w :
  exists final w',
    create_benefit_slides vc bs ph out w = (Ok out, w') /\
    fs w' !! out = Some (EncodedVideo final 24) /\
    segments final
    = segments vc ++ map (benefit_clip vc) bs ++ [cta_clip vc ph] /\
    map slide_text (map (benefit_clip vc) bs) = map Some bs /\
    slide_text (cta_clip vc ph) = Some (lit "Call Now: " ++ ph) /\
    map slide_text (map (benefit_clip vc) bs ++ [cta_clip vc ph])
    = map Some bs ++ [Some (lit "Call Now: " ++ ph)] /\
    Forall (fun c => c <> cta_clip vc ph) (map (benefit_clip vc) bs) /\
    trace w' = trace w ++ [EvEncode out final 24].
Proof.
  eexists _, _. rewrite create_benefit_slides_run.
  split; [reflexivity |]. split; [apply lookup_insert_eq |].
  split; [apply segments_final_clip |].
  split; [rewrite map_map; reflexivity |].
  split; [reflexivity |].
  split; [rewrite map_app, map_map; reflexivity |].
  split; [| reflexivity].
  apply Forall_forall. intros c Hc. apply list_elem_of_fmap in Hc.
  destruct Hc as (b & -> & _). discriminate.
Qed.

(** C5: every benefit slide lasts 3 seconds and the call-to-action slide 4
    seconds, all of them have the frame size of the talking-head clip, and
    the call-to-action slide is set in a larger font and in another colour
    (yellow) than the benefit slides. *)
Theorem slide_durations_and_sizes vc bs ph :
  exists slides cta,
    slide_clips vc bs ph = slides ++ [TextSlide cta] /\
    length slides = length bs /\
    Forall (fun c => exists t, c = TextSlide t /\
                duration t = Some 3 /\ size t = clip_size vc /\
                fontsize t < fontsize cta /\ color t <> color cta) slides /\
    duration cta = Some 4 /\ size cta = clip_size vc /\
    fontsize cta = 60 /\ color cta = lit "yellow".
Proof.
  rewrite slide_clips_eq. eexists _, _. split; [reflexivity |].
  split; [apply length_map |]. split; [| repeat split].
  apply Forall_forall. intros c Hc. apply list_elem_of_fmap in Hc.
  destruct Hc as (b & -> & _). eexists. split; [reflexivity |].
  simpl. repeat split; try lia. discriminate.
Qed.

(** C6: in the final composition the slide sequence, silent by itself,
    carries the audio track of the talking-head clip; the timeline is that
    clip followed by the slide sequence; and the artifact is encoded at 24
    frames per second whatever the request. *)
Theorem final_composition vc bs ph out w :
  exists slides_concat w',
    create_benefit_slides vc bs ph out w = (Ok out, w') /\
    fs w' !! out
    = Some (EncodedVideo
              (Concat [vc; WithAudio slides_concat (clip_audio vc)]
                 (lit "compose")) 24) /\
    trace w'
    = trace w ++ [EvEncode out
                    (Concat [vc; WithAudio slides_concat (clip_audio vc)]
                       (lit "compose")) 24] /\
    clip_audio slides_concat = None /\
    clip_audio (WithAudio slides_concat (clip_audio vc)) = clip_audio vc /\
    segments (Concat [vc; WithAudio slides_concat (clip_audio vc)]
                (lit "compose"))
    = segments vc ++ segments slides_concat /\
    segments slides_concat = slide_clips vc bs ph.
Proof.
  exists (Concat (slide_clips vc bs ph) (lit "compose")). eexists.
  rewrite create_benefit_slides_run.
  split; [reflexivity |]. split; [apply lookup_insert_eq |].
  split; [reflexivity |].
  split; [apply audio_text_slides, slide_clips_text |].
  split; [reflexivity |].
  split; [rewrite segments_Concat; simpl; now rewrite app_nil_r |].
  apply segments_text_slides, slide_clips_text.
Qed.

(** ** Speech synthesis *)

Lemma generate_audio_run text path w :
  generate_audio text path w =
  match tts_answers w with
  | [] => (Raise ConnectionError, after_post text w)
  | resp :: _ =>
      if status_code resp =? 200
      then (Ok path, after_audio text path (content resp) w)
      else (Raise (tts_error resp), after_post text w)
  end.
Proof.
  unfold generate_audio, bind, requests_post, write_file, bind, emit, set_fs,
    raise, ret, after_post, after_audio, tts_error, tts_request.
  destruct (tts_answers w) as [|resp rest]; [reflexivity |].
  destruct (status_code resp =? 200); simpl; [| reflexivity].
  now rewrite <- app_assoc.
Qed.

(** ** Lip-sync rendering *)

Lemma generate_lip_synced_video_run a i o w :
  generate_lip_synced_video a i o w =
  match fs w !! checkpoint with
  | None =>
      (Raise (FileNotFoundError
                (lit "Place wav2lip_gan.pth into Wav2Lip/checkpoints/ first.")),
       w)
  | Some _ =>
      match proc_outcomes w with
      | [] => (Raise (OSError (lit "python")), after_spawn (wav2lip_cmd a i o) id w)
      | out :: _ =>
          if returncode out =? 0
          then (Ok o, after_spawn (wav2lip_cmd a i o) (effect out) w)
          else (Raise (CalledProcessError (returncode out) (wav2lip_cmd a i o)),
                after_spawn (wav2lip_cmd a i o) (effect out) w)
      end
  end.
Proof.
  unfold generate_lip_synced_video, bind, os_path_exists, subprocess_run,
    raise, ret, after_spawn.
  change (os_path_join WAV2LIP_PATH [lit "checkpoints"; lit "wav2lip_gan.pth"])
    with checkpoint.
  change (os_path_join WAV2LIP_PATH [lit "inference.py"])
    with (lit "Wav2Lip/inference.py").
  fold (wav2lip_cmd a i o).
  destruct (fs w !! checkpoint) as [d|] eqn:E.
  - rewrite bool_decide_eq_true_2 by eauto. simpl.
    destruct (proc_outcomes w) as [|out rest]; [reflexivity |].
    destruct (returncode out =? 0); reflexivity.
  - rewrite bool_decide_eq_false_2; [reflexivity |].
    intros [x Hx]. discriminate.
Qed.

(** ** What a computation adds to the world *)

Lemma keeps_grows {X A} (proj : World -> list X) P (m : M A) :
  keeps proj m -> grows proj P m.
Proof. intros H w. exists []. rewrite H, app_nil_r. auto. Qed.

Lemma grows_bind {X A B} (proj : World -> list X) P (m : M A) (k : A -> M B) :
  grows proj P m -> (forall a, grows proj P (k a)) -> grows proj P (bind m k).
Proof.
  intros Hm Hk w. unfold bind. destruct (Hm w) as (n1 & E1 & F1).
  destruct (m w) as [[a|e] w1]; simpl in *.
  - destruct (Hk a w1) as (n2 & E2 & F2). exists (n1 ++ n2).
    rewrite E2, E1, app_assoc. split; [reflexivity | now apply Forall_app].
  - eauto.
Qed.

Lemma grows_bind_result {X A B} (proj : World -> list X) P (R : A -> Prop)
    (m : M A) (k : A -> M B) :
  grows proj P m ->
  (forall w a w', m w = (Ok a, w') -> R a) ->
  (forall a, R a -> grows proj P (k a)) ->
  grows proj P (bind m k).
Proof.
  intros Hm HR Hk w. unfold bind. destruct (Hm w) as (n1 & E1 & F1).
  specialize (HR w).
  destruct (m w) as [[a|e] w1]; simpl in *.
  - destruct (Hk a (HR _ _ eq_refl) w1) as (n2 & E2 & F2). exists (n1 ++ n2).
    rewrite E2, E1, app_assoc. split; [reflexivity | now apply Forall_app].
  - eauto.
Qed.

Lemma keeps_bind {X A B} (proj : World -> X) (m : M A) (k : A -> M B) :
  keeps proj m -> (forall a, keeps proj (k a)) -> keeps proj (bind m k).
Proof.
  intros Hm Hk w. unfold bind. specialize (Hm w).
  destruct (m w) as [[a|e] w1]; simpl in *; [| assumption].
  now rewrite Hk.
Qed.

Lemma grows_weaken {X A} (proj : World -> list X) (P Q : X -> Prop) (m : M A) :
  (forall x, P x -> Q x) -> grows proj P m -> grows proj Q m.
Proof.
  intros HPQ H w. destruct (H w) as (new & E & F). exists new.
  split; [assumption |]. eapply Forall_impl; eauto.
Qed.

(** Case analysis on an innermost scrutinee of the goal. *)
Ltac break_match :=
  match goal with
  | |- context [match ?x with _ => _ end] =>
      lazymatch x with
      | context [match _ with _ => _ end] => fail
      | _ => destruct x
      end
  end.

Ltac keeps_prim :=
  try intros ?w; cbv beta iota delta [ret raise emit set_fs log_call
    requests_post os_path_exists subprocess_run input bind];
  repeat break_match; reflexivity.

Lemma generate_audio_keeps_stdin t p : keeps stdin (generate_audio t p).
Proof. intros w. rewrite generate_audio_run. keeps_prim. Qed.

Lemma generate_audio_keeps_calls t p : keeps calls (generate_audio t p).
Proof. intros w. rewrite generate_audio_run. keeps_prim. Qed.

Lemma generate_lip_keeps_stdin a i o : keeps stdin (generate_lip_synced_video a i o).
Proof. intros w. rewrite generate_lip_synced_video_run. keeps_prim. Qed.

Lemma generate_lip_keeps_calls a i o : keeps calls (generate_lip_synced_video a i o).
Proof. intros w. rewrite generate_lip_synced_video_run. keeps_prim. Qed.

Lemma VideoFileClip_keeps_stdin p : keeps stdin (VideoFileClip p).
Proof. unfold VideoFileClip. keeps_prim. Qed.

Lemma VideoFileClip_keeps_calls p : keeps calls (VideoFileClip p).
Proof. unfold VideoFileClip. keeps_prim. Qed.

Lemma create_benefit_slides_keeps_stdin vc bs ph out :
  keeps stdin (create_benefit_slides vc bs ph out).
Proof. intros w. now rewrite create_benefit_slides_run. Qed.

Lemma create_benefit_slides_keeps_calls vc bs ph out :
  keeps calls (create_benefit_slides vc bs ph out).
Proof. intros w. now rewrite create_benefit_slides_run. Qed.

Lemma generate_ad_keeps_stdin t b p : keeps stdin (generate_ad t b p).
Proof.
  unfold generate_ad.
  repeat (apply keeps_bind; [| intros ?]);
    auto using generate_audio_keeps_stdin, generate_lip_keeps_stdin,
      VideoFileClip_keeps_stdin, create_benefit_slides_keeps_stdin;
    keeps_prim.
Qed.

(** ** The pipeline *)

Lemma generate_ad_calls t b p w :
  calls (snd (generate_ad t b p w)) = calls w ++ [(t, b, p)].
Proof.
  unfold generate_ad. unfold bind at 1, log_call.
  match goal with
  | |- calls (snd (?rest ?w1)) = _ =>
      assert (K : keeps calls rest); [| exact (K w1)]
  end.
  repeat (apply keeps_bind; [| intros ?]);
    auto using generate_audio_keeps_calls, generate_lip_keeps_calls,
      VideoFileClip_keeps_calls, create_benefit_slides_keeps_calls;
    keeps_prim.
Qed.

Ltac grows_prim :=
  try intros ?w; cbv beta iota delta [ret raise emit set_fs log_call
    requests_post os_path_exists subprocess_run input bind];
  repeat break_match; simpl;
  first [ exists []; rewrite app_nil_r; split; [reflexivity | constructor]
        | eexists [_]; split; [reflexivity | repeat constructor]
        | eexists [_; _]; split; [reflexivity | repeat constructor] ].

Lemma generate_ad_trace t b p : grows trace (ad_event b p) (generate_ad t b p).
Proof.
  unfold generate_ad.
  apply grows_bind; [grows_prim | intros _].
  apply grows_bind; [| intros _].
  { intros w. rewrite generate_audio_run. unfold after_post, after_audio.
    grows_prim. }
  apply grows_bind; [| intros _].
  { intros w. rewrite generate_lip_synced_video_run. unfold after_spawn.
    grows_prim. }
  apply grows_bind_result
    with (R := fun c => exists f s a, c = FileClip f s a).
  { unfold VideoFileClip. grows_prim. }
  { intros w c w'. unfold VideoFileClip. unfold bind, emit. simpl.
    repeat match goal with
      | |- context [match ?x with _ => _ end] => destruct x
      end; intros [= <- _]; eauto. }
  intros vc (f & s & a & ->).
  apply grows_bind; [| intros _; grows_prim].
  intros w. rewrite create_benefit_slides_run. simpl.
  eexists [_]. split; [reflexivity |]. repeat constructor. eauto.
Qed.

Lemma generate_ad_tts_failure t b p w resp rest :
  tts_answers w = resp :: rest -> status_code resp <> 200 ->
  generate_ad t b p w
  = (Raise (tts_error resp), after_post t (logged (t, b, p) w)).
Proof.
  intros Hq Hs. unfold generate_ad. unfold bind at 1 2, log_call.
  rewrite generate_audio_run. simpl. rewrite Hq.
  apply Z.eqb_neq in Hs. rewrite Hs. unfold logged. now rewrite Hq.
Qed.

Lemma generate_ad_no_answer t b p w :
  tts_answers w = [] ->
  generate_ad t b p w
  = (Raise ConnectionError, after_post t (logged (t, b, p) w)).
Proof.
  intros Hq. unfold generate_ad. unfold bind at 1 2, log_call.
  rewrite generate_audio_run. simpl. rewrite Hq. unfold logged.
  now rewrite Hq.
Qed.

Lemma generate_ad_first_event t b p w :
  exists rest, trace (snd (generate_ad t b p w)) = trace w ++ tts_request t :: rest.
Proof.
  destruct (tts_answers w) as [|resp q] eqn:Hq.
  { rewrite generate_ad_no_answer by assumption. now exists []. }
  destruct (Z.eq_dec (status_code resp) 200) as [Hs|Hs].
  2:{ erewrite generate_ad_tts_failure by eassumption. now exists []. }
  unfold generate_ad. unfold bind at 1 2, log_call.
  rewrite generate_audio_run. simpl. rewrite Hq.
  apply Z.eqb_eq in Hs. rewrite Hs.
  match goal with
  | |- exists _, trace (snd (?k ?w1)) = _ =>
      assert (G : grows trace (fun _ => True) k)
  end.
  { apply grows_bind; [| intros _].
    { intros w1. rewrite generate_lip_synced_video_run. unfold after_spawn.
      grows_prim. }
    apply grows_bind; [unfold VideoFileClip; grows_prim | intros vc].
    apply grows_bind; [| intros _; grows_prim].
    intros w1. rewrite create_benefit_slides_run. grows_prim. }
  match goal with
  | |- exists _, trace (snd (?k ?w1)) = _ => destruct (G w1) as (new & E & _)
  end.
  rewrite E. simpl. rewrite <- app_assoc. simpl. eauto.
Qed.

(** C3: when the TTS service answers with a status other than 200,
    [generate_audio] raises an error that carries the status code and the
    service's message and leaves every file as it was, and [generate_ad]
    stops there: the request to the service is its only interaction with
    the outside, so no rendering process is spawned and nothing is
    composed. *)
Theorem tts_failure_aborts text bs prefix w resp rest :
  tts_answers w = resp :: rest ->
  status_code resp <> 200 ->
  let err :=
    RuntimeError (lit "ElevenLabs TTS failed: " ++ str_of_int (status_code resp)
                  ++ lit " " ++ resp_text resp) in
  (forall path, exists w',
      generate_audio text path w = (Raise err, w') /\
      fs w' = fs w /\ trace w' = trace w ++ [tts_request text]) /\
  (exists w',
      generate_ad text bs prefix w = (Raise err, w') /\
      fs w' = fs w /\ trace w' = trace w ++ [tts_request text]).
Proof.
  intros Hq Hs err. split.
  - intros path. eexists. rewrite generate_audio_run, Hq.
    apply Z.eqb_neq in Hs. rewrite Hs. repeat split.
  - eexists. erewrite generate_ad_tts_failure by eassumption. repeat split.
Qed.

(** C4: when the model checkpoint is missing, [generate_lip_synced_video]
    raises [FileNotFoundError] and leaves the world as it found it: no
    process is spawned.  When the checkpoint is there, the one thing the
    stage does to the outside is to spawn the Wav2Lip process. *)
Theorem missing_checkpoint_fails_fast audio image out w :
  match fs w !! lit "Wav2Lip/checkpoints/wav2lip_gan.pth" with
  | None =>
      generate_lip_synced_video audio image out w
      = (Raise (FileNotFoundError
                  (lit "Place wav2lip_gan.pth into Wav2Lip/checkpoints/ first.")),
         w)
  | Some _ =>
      exists r w',
        generate_lip_synced_video audio image out w = (r, w') /\
        trace w' = trace w ++ [EvSpawn (wav2lip_cmd audio image out)]
  end.
Proof.
  rewrite generate_lip_synced_video_run. fold checkpoint.
  destruct (fs w !! checkpoint); [| reflexivity].
  destruct (proc_outcomes w) as [|o q]; [eauto |].
  destruct (returncode o =? 0); eauto.
Qed.

(** C8 as the script has it: the narration text is not validated.  For
    every text, the empty one included, the first thing [generate_audio]
    does is to send that text to the TTS service, and the text plays no
    part in what follows: the call ends as it would for the empty text.
    With no answer it fails with a connection error; with a status other
    than 200 it raises the TTS error and nothing is written; with status
    200 its next step is to write the audio file.  The request is also the
    first thing [generate_ad] does to the outside. *)
Theorem narration_not_validated text path bs prefix w :
  (exists url headers vs,
      tts_request text = EvPost url {| p_text := text; voice_settings := vs |} headers) /\
  (exists more,
      trace (snd (generate_audio text path w))
      = trace w ++ tts_request text :: more) /\
  fst (generate_audio text path w) = fst (generate_audio [] path w) /\
  match tts_answers w with
  | [] =>
      generate_audio text path w = (Raise ConnectionError, after_post text w)
  | resp :: _ =>
      if status_code resp =? 200 then
        trace (snd (generate_audio text path w))
        = trace w ++ [tts_request text; EvWrite path]
      else
        generate_audio text path w
        = (Raise (RuntimeError
                    (lit "ElevenLabs TTS failed: "
                     ++ str_of_int (status_code resp)
                     ++ lit " " ++ resp_text resp)),
           after_post text w)
  end /\
  (exists more,
      trace (snd (generate_ad text bs prefix w))
      = trace w ++ tts_request text :: more).
Proof.
  split; [unfold tts_request; eauto |].
  rewrite !generate_audio_run.
  split; [| split; [| split; [| apply generate_ad_first_event]]].
  - destruct (tts_answers w) as [|resp q]; [now exists [] |].
    destruct (status_code resp =? 200); [now exists [EvWrite path] | now exists []].
  - destruct (tts_answers w) as [|resp q]; [reflexivity |].
    destruct (status_code resp =? 200); reflexivity.
  - destruct (tts_answers w) as [|resp q]; [reflexivity |].
    destruct (status_code resp =? 200); reflexivity.
Qed.

(** ** Artifact paths *)

Lemma join_output x :
  os_path_join OUTPUT_DIR [x]
  = if startswith_char slash x then x else lit "output/" ++ x.
Proof.
  unfold os_path_join. simpl. unfold join_step.
  destruct (startswith_char slash x); reflexivity.
Qed.



Ltac suffix_clash H :=
  apply (f_equal (@rev N)) in H; rewrite !rev_app_distr in H;
  simpl in H; discriminate H.


(** ** The menu *)

Lemma generate_ad_grows_calls t b p (P : str * list str * str -> Prop) :
  P (t, b, p) -> grows calls P (generate_ad t b p).
Proof.
  intros HP w. exists [(t, b, p)]. rewrite generate_ad_calls. auto.
Qed.

Lemma input_keeps_calls : keeps calls input.
Proof. keeps_prim. Qed.

Lemma input_keeps_trace : keeps trace input.
Proof. keeps_prim. Qed.

Lemma menu_turn_calls : grows calls menu_call menu_turn.
Proof.
  unfold menu_turn, show_menu.
  apply grows_bind; [apply keeps_grows; keeps_prim | intros choice].
  repeat case_bool_decide.
  - apply grows_bind; [| intros _; grows_prim].
    apply generate_ad_grows_calls. now left.
  - apply grows_bind; [| intros _; grows_prim].
    apply generate_ad_grows_calls. right. now left.
  - apply grows_bind; [apply keeps_grows, input_keeps_calls | intros script].
    apply grows_bind; [apply keeps_grows, input_keeps_calls | intros line].
    apply grows_bind; [| intros _; grows_prim].
    apply generate_ad_grows_calls. right. right. exists script, line.
    unfold custom_benefits. case_bool_decide; reflexivity.
  - grows_prim.
  - grows_prim.
Qed.

Lemma generate_ad_grows_trace t b p :
  grows trace (fun e => exists b p, ad_event b p e) (generate_ad t b p).
Proof.
  apply (grows_weaken trace (ad_event b p)); [eauto | apply generate_ad_trace].
Qed.

Lemma menu_turn_trace :
  grows trace (fun e => exists b p, ad_event b p e) menu_turn.
Proof.
  unfold menu_turn, show_menu.
  apply grows_bind; [apply keeps_grows; keeps_prim | intros choice].
  repeat case_bool_decide;
    repeat (apply grows_bind;
            [first [ apply generate_ad_grows_trace
                   | apply keeps_grows, input_keeps_trace ]
            | intros ? ]);
    grows_prim.
Qed.

Lemma main_loop_grows {X} (proj : World -> list X) (P : X -> Prop) :
  grows proj P menu_turn ->
  forall fuel w, exists new,
    proj (snd (main_loop fuel w)) = proj w ++ new /\ Forall P new.
Proof.
  intros Hturn. induction fuel as [|fuel IH]; intros w; simpl.
  - exists []. now rewrite app_nil_r.
  - destruct (Hturn w) as (n1 & E1 & F1).
    destruct (menu_turn w) as [[[|]|e] w1]; simpl in *; eauto.
    destruct (IH w1) as (n2 & E2 & F2). exists (n1 ++ n2).
    rewrite E2, E1, app_assoc. split; [reflexivity | now apply Forall_app].
Qed.

Lemma menu_turn_consumes w b w' :
  menu_turn w = (Ok b, w') -> (length (stdin w') < length (stdin w))%nat.
Proof.
  unfold menu_turn, show_menu. unfold bind at 1 2. unfold input at 1.
  destruct (stdin w) as [|l ls] eqn:Hin; [discriminate |].
  unfold ret at 1.
  set (w1 := {| fs := fs w; stdin := ls; tts_answers := tts_answers w;
                proc_outcomes := proc_outcomes w; trace := trace w;
                calls := calls w |}).
  assert (K : forall t bs p r w2,
             generate_ad t bs p w1 = (r, w2) -> stdin w2 = ls).
  { intros t bs p r w2 E.
    pose proof (generate_ad_keeps_stdin t bs p w1) as H.
    now rewrite E in H. }
  repeat case_bool_decide; unfold bind.
  - destruct (generate_ad _ _ _ w1) as [[[]|e] w2] eqn:E; intros [= <- <-].
    apply K in E. rewrite E. simpl. lia.
  - destruct (generate_ad _ _ _ w1) as [[[]|e] w2] eqn:E; intros [= <- <-].
    apply K in E. rewrite E. simpl. lia.
  - unfold input. simpl.
    destruct ls as [|l2 [|l3 ls']]; cbv beta iota zeta delta [stdin];
      try discriminate.
    match goal with
    | |- context [generate_ad ?t ?bs ?p ?w0] =>
        pose proof (generate_ad_keeps_stdin t bs p w0) as Hk;
        destruct (generate_ad t bs p w0) as [[[]|e] w2]
    end; intros [= <- <-].
    unfold stdin in Hk |- *. simpl in Hk |- *. rewrite Hk. lia.
  - intros [= <- <-]. simpl. lia.
  - intros [= <- <-]. simpl. lia.
Qed.

(** The loop ends: within one turn more than there are lines to read,
    [main] has either left the loop or raised. *)
Lemma main_terminates w : exists r, fst (main w) = Some r.
Proof.
  unfold main. generalize (Nat.lt_succ_diag_r (length (stdin w))).
  generalize (S (length (stdin w))) as fuel. intros fuel. revert w.
  induction fuel as [|fuel IH]; intros w Hlt; [lia |].
  simpl. destruct (menu_turn w) as [[[|]|e] w1] eqn:E; simpl; eauto.
  apply IH. apply menu_turn_consumes in E. lia.
Qed.

(** ** Successful runs *)

Lemma generate_ad_success t b p w w' :
  generate_ad t b p w = (Ok tt, w') ->
  exists s a,
    let final :=
      final_clip (FileClip (lip_video_path p) s a) b (lit "(561) 576-0801") in
    fs w' !! final_output p = Some (EncodedVideo final 24) /\
    trace w'
    = trace w ++
      [tts_request t; EvWrite (audio_path p);
       EvSpawn (wav2lip_cmd (audio_path p) SPOKESPERSON_IMAGE (lip_video_path p));
       EvOpenVideo (lip_video_path p);
       EvEncode (final_output p) final 24].
Proof.
  unfold generate_ad. unfold bind at 1 2, log_call.
  rewrite generate_audio_run. cbn [tts_answers].
  destruct (tts_answers w) as [|resp q]; [discriminate |].
  destruct (status_code resp =? 200); [| discriminate].
  unfold bind at 1. rewrite generate_lip_synced_video_run.
  destruct (fs _ !! checkpoint); [| discriminate].
  cbn [proc_outcomes after_audio].
  destruct (proc_outcomes w) as [|o os]; [discriminate |].
  destruct (returncode o =? 0); [| discriminate].
  unfold bind at 1. unfold VideoFileClip, bind at 1, emit.
  cbn [fs after_spawn after_audio].
  destruct (effect o _ !! lip_video_path p) as [[data|s a|c fps]|];
    try discriminate.
  - unfold bind. rewrite create_benefit_slides_run. unfold ret.
    intros [= <-]. exists s, a. cbn. split; [apply lookup_insert_eq |].
    rewrite <- !app_assoc. reflexivity.
  - unfold bind. rewrite create_benefit_slides_run. unfold ret.
    intros [= <-]. eexists _, _. cbn. split; [apply lookup_insert_eq |].
    rewrite <- !app_assoc. reflexivity.
Qed.

(** C9: whatever the narration, the benefit list, the prefix, the menu
    choices or the custom input, every video the script encodes ends with
    the call-to-action slide whose text is exactly
    [Call Now: (561) 576-0801]: the phone number is the literal that
    [generate_ad] passes to the composer. *)
Theorem cta_phone_is_constant :
  (forall text bs prefix w, exists new,
      trace (snd (generate_ad text bs prefix w)) = trace w ++ new /\
      Forall shows_fixed_cta new) /\
  (forall fuel w, exists new,
      trace (snd (main_loop fuel w)) = trace w ++ new /\
      Forall shows_fixed_cta new).
Proof.
  assert (W : forall e, (exists b p, ad_event b p e) -> shows_fixed_cta e).
  { intros [] (b & p & He); simpl in *; try exact I.
    destruct He as (_ & _ & f & s & a & ->).
    rewrite segments_final_clip, app_assoc, last_snoc. reflexivity. }
  split.
  - intros text bs prefix w.
    apply (grows_weaken trace (fun e => exists b p, ad_event b p e)); [exact W |].
    apply generate_ad_grows_trace.
  - intros fuel w. apply main_loop_grows.
    eapply grows_weaken; [exact W | apply menu_turn_trace].
Qed.

(** C10: the menu invokes [generate_ad] with one of the three prefixes
    [aca_ad], [fe_ad] and [custom_ad] only; and of two successive runs
    with the same prefix that both succeed, the later writes to the very
    paths the earlier wrote to, and the final artifact found there
    afterwards is the later run's. *)
Theorem menu_prefixes_fixed_and_overwrite
    fuel w0 t1 b1 t2 b2 p w w1 w1' w2 :
  generate_ad t1 b1 p w = (Ok tt, w1) ->
  fs w1' = fs w1 ->
  generate_ad t2 b2 p w1' = (Ok tt, w2) ->
  (exists new,
      calls (snd (main_loop fuel w0)) = calls w0 ++ new /\
      Forall (fun c => c.2 ∈ [lit "aca_ad"; lit "fe_ad"; lit "custom_ad"]) new) /\
  (exists s1 a1 s2 a2 n1 n2,
      fs w1' !! final_output p
      = Some (EncodedVideo
                (final_clip (FileClip (lip_video_path p) s1 a1) b1
                   (lit "(561) 576-0801")) 24) /\
      fs w2 !! final_output p
      = Some (EncodedVideo
                (final_clip (FileClip (lip_video_path p) s2 a2) b2
                   (lit "(561) 576-0801")) 24) /\
      trace w1 = trace w ++ n1 /\ trace w2 = trace w1' ++ n2 /\
      omap written_path n1 = [audio_path p; final_output p] /\
      omap written_path n2 = [audio_path p; final_output p]).
Proof.
  intros R1 Hfs R2. split.
  - apply main_loop_grows. eapply grows_weaken; [| apply menu_turn_calls].
    intros c [-> | [-> | (script & line & ->)]]; simpl; set_solver.
  - apply generate_ad_success in R1. destruct R1 as (s1 & a1 & F1 & T1).
    apply generate_ad_success in R2. destruct R2 as (s2 & a2 & F2 & T2).
    exists s1, a1, s2, a2. eexists _, _. rewrite Hfs.
    split; [exact F1 |]. split; [exact F2 |].
    split; [exact T1 |]. split; [exact T2 |]. split; reflexivity.
Qed.

(** ** Sample runs *)


(** C8, as stated, fails: with the custom entry of the menu and an empty
    script, the run is not refused; the empty text is sent to the TTS
    service and the ad is made. *)
Lemma empty_narration_is_synthesized :
  let w :=
    studio [lit "3"; []; lit "A,B"; lit "4"] [tts_ok]
      [wav2lip_ok (lit "custom_ad")] in
  fst (main w) = Some (Ok tt) /\
  calls (snd (main w)) = [([], [lit "A"; lit "B"], lit "custom_ad")] /\
  head (trace (snd (main w))) = Some (tts_request []) /\
  is_Some (fs (snd (main w)) !! final_output (lit "custom_ad")).
Proof. vm_compute. repeat split. eauto. Qed.

(** A run that meets the premises of C3: the service answers 401. *)
Lemma tts_failure_aborts_witness :
  let w := studio [] [tts_unauthorized] [wav2lip_ok (lit "t1")] in
  let err := RuntimeError (lit "ElevenLabs TTS failed: 401 Unauthorized") in
  tts_answers w = [tts_unauthorized] /\
  status_code tts_unauthorized <> 200 /\
  (forall path, exists w',
      generate_audio (lit "Hello world") path w = (Raise err, w') /\
      fs w' = fs w /\ trace w' = trace w ++ [tts_request (lit "Hello world")]) /\
  (exists w',
      generate_ad (lit "Hello world") [lit "A"; lit "B"] (lit "t1") w
      = (Raise err, w') /\
      fs w' = fs w /\ trace w' = trace w ++ [tts_request (lit "Hello world")]).
Proof.
  intros w err.
  assert (Hq : tts_answers w = [tts_unauthorized]) by reflexivity.
  assert (Hs : status_code tts_unauthorized <> 200) by discriminate.
  split; [exact Hq |]. split; [exact Hs |].
  exact (tts_failure_aborts (lit "Hello world") [lit "A"; lit "B"] (lit "t1")
           w tts_unauthorized [] Hq Hs).
Defined.

(** Two successive runs under the prefix [aca_ad], as in C10: the second
    video replaces the first. *)
Lemma menu_prefixes_fixed_and_overwrite_witness :
  let w :=
    studio [] [tts_ok; tts_ok]
      [wav2lip_ok (lit "aca_ad"); wav2lip_ok (lit "aca_ad")] in
  let w1 := snd (generate_ad ACA_TEMPLATE ACA_BENEFITS (lit "aca_ad") w) in
  let w2 := snd (generate_ad FE_TEMPLATE FE_BENEFITS (lit "aca_ad") w1) in
  generate_ad ACA_TEMPLATE ACA_BENEFITS (lit "aca_ad") w = (Ok tt, w1) /\
  generate_ad FE_TEMPLATE FE_BENEFITS (lit "aca_ad") w1 = (Ok tt, w2) /\
  artifact_timeline w1 (final_output (lit "aca_ad"))
  <> artifact_timeline w2 (final_output (lit "aca_ad")) /\
  exists s a,
    fs w2 !! final_output (lit "aca_ad")
    = Some (EncodedVideo
              (final_clip (FileClip (lip_video_path (lit "aca_ad")) s a)
                 FE_BENEFITS (lit "(561) 576-0801")) 24).
Proof.
  intros w w1 w2.
  assert (R1 : generate_ad ACA_TEMPLATE ACA_BENEFITS (lit "aca_ad") w = (Ok tt, w1))
    by (vm_compute; reflexivity).
  assert (R2 : generate_ad FE_TEMPLATE FE_BENEFITS (lit "aca_ad") w1 = (Ok tt, w2))
    by (vm_compute; reflexivity).
  split; [exact R1 |]. split; [exact R2 |].
  split; [vm_compute; discriminate |].
  destruct (menu_prefixes_fixed_and_overwrite 0 w _ _ _ _ _ _ _ w1 _
              R1 eq_refl R2)
    as (_ & s1 & a1 & s2 & a2 & n1 & n2 & _ & F2 & _).
  exists s2, a2. exact F2.
Defined.

(** * Further properties *)

(** ** Cutting and trimming the line of bullets *)

Lemma split_not_nil sep s : split sep s <> [].
Proof.
  destruct s as [|c s]; simpl; [discriminate |].
  destruct (N.eqb c sep); [discriminate |].
  destruct (split sep s); discriminate.
Qed.

Lemma join_split sep s : join_with sep (split sep s) = s.
Proof.
  induction s as [|c s IH]; [reflexivity |].
  simpl. destruct (N.eqb_spec c sep) as [-> | Hne].
  - pose proof (split_not_nil sep s) as Hn.
    simpl. destruct (split sep s) as [|x xs]; [contradiction |].
    simpl in *. now rewrite IH.
  - pose proof (split_not_nil sep s) as Hn.
    destruct (split sep s) as [|x xs]; [contradiction |].
    simpl in *. destruct xs; rewrite <- IH; reflexivity.
Qed.

Lemma split_pieces_free sep s : Forall (fun piece => sep ∉ piece) (split sep s).
Proof.
  induction s as [|c s IH]; simpl.
  - repeat constructor. apply not_elem_of_nil.
  - destruct (N.eqb_spec c sep) as [-> | Hne].
    + constructor; [apply not_elem_of_nil | assumption].
    + destruct (split sep s) as [|x xs].
      * repeat constructor. intros H. apply list_elem_of_In in H.
        destruct H as [H | []]. congruence.
      * inversion IH as [|? ? Hx Hxs]; subst. constructor; [| assumption].
        intros H. apply elem_of_cons in H. destruct H as [H | H];
          [congruence | contradiction].
Qed.

Lemma lstrip_decomp s :
  exists pre, s = pre ++ lstrip s /\ Forall (fun c => isspace c = true) pre.
Proof.
  induction s as [|c s (pre & E & F)]; simpl.
  - exists []. auto.
  - destruct (isspace c) eqn:Hc.
    + exists (c :: pre). simpl. rewrite <- E. auto.
    + exists []. auto.
Qed.

Lemma lstrip_fixed s :
  lstrip s = s <-> s = [] \/ exists c r, s = c :: r /\ isspace c = false.
Proof.
  split.
  - destruct s as [|c r]; [auto |]. simpl.
    destruct (isspace c) eqn:Hc; [| eauto].
    intros H. destruct (lstrip_decomp r) as (pre & E & _).
    apply (f_equal (@length N)) in H. apply (f_equal (@length N)) in E.
    rewrite length_app in E. simpl in H. lia.
  - intros [-> | (c & r & -> & Hc)]; [reflexivity |]. simpl. now rewrite Hc.
Qed.

Lemma lstrip_idem s : lstrip (lstrip s) = lstrip s.
Proof.
  induction s as [|c s IH]; [reflexivity |]. simpl.
  destruct (isspace c) eqn:Hc; [assumption |]. simpl. now rewrite Hc.
Qed.

Lemma rstrip_decomp s :
  exists post, s = rstrip s ++ post /\ Forall (fun c => isspace c = true) post.
Proof.
  unfold rstrip. destruct (lstrip_decomp (rev s)) as (pre & E & F).
  exists (rev pre). split.
  - rewrite <- rev_app_distr, <- E. now rewrite rev_involutive.
  - apply Forall_forall. intros c Hc. rewrite Forall_forall in F. apply F.
    apply list_elem_of_In. apply list_elem_of_In in Hc. now apply in_rev.
Qed.

Lemma strip_trimmed s : trimmed (strip s).
Proof.
  unfold trimmed, strip. split.
  - apply lstrip_fixed.
    destruct (rstrip (lstrip s)) as [|c r] eqn:E; [auto |]. right.
    exists c, r. split; [reflexivity |].
    destruct (rstrip_decomp (lstrip s)) as (post & D & _).
    rewrite E in D. pose proof (lstrip_idem s) as I. rewrite D in I.
    simpl in I. destruct (isspace c) eqn:Hc; [| reflexivity].
    destruct (lstrip_decomp (r ++ post)) as (pre & E2 & _).
    apply (f_equal (@length N)) in I. apply (f_equal (@length N)) in E2.
    rewrite length_app in E2. simpl in I. rewrite length_app in *. lia.
  - unfold rstrip. rewrite rev_involutive. apply lstrip_idem.
Qed.

Lemma strip_of_trimmed s : trimmed s -> strip s = s.
Proof.
  intros [H1 H2]. unfold strip, rstrip. rewrite H1, H2.
  apply rev_involutive.
Qed.

Lemma strip_idem s : strip (strip s) = strip s.
Proof. apply strip_of_trimmed, strip_trimmed. Qed.

Lemma strip_keeps_out (c : N) s : c ∉ s -> c ∉ strip s.
Proof.
  intros Hc Hin. apply Hc. unfold strip in Hin.
  destruct (lstrip_decomp s) as (pre & E & _).
  destruct (rstrip_decomp (lstrip s)) as (post & D & _).
  rewrite E, D. set_solver.
Qed.

(** X1: every bullet of an ad made through the menu is non-empty and has
    no space at either end, and a bullet of a custom ad contains no
    comma. *)
Theorem menu_bullets_clean fuel w :
  exists new,
    calls (snd (main_loop fuel w)) = calls w ++ new /\
    Forall (fun c =>
              Forall (fun b => b <> [] /\ strip b = b) c.1.2 /\
              (c.2 = lit "custom_ad" -> Forall (fun b => comma ∉ b) c.1.2))
      new.
Proof.
  apply main_loop_grows. eapply grows_weaken; [| apply menu_turn_calls].
  intros c [-> | [-> | (script & line & ->)]]; simpl.
  - split; [| discriminate]. repeat constructor; discriminate.
  - split; [| discriminate]. repeat constructor; discriminate.
  - assert (S : Forall (fun b => (b <> [] /\ strip b = b) /\ comma ∉ b)
                  (custom_benefits line)).
    { unfold custom_benefits. case_bool_decide as Hd.
      - repeat constructor; try discriminate;
          apply (bool_decide_unpack _); vm_compute; reflexivity.
      - unfold stripped_bullets. apply Forall_forall. intros b Hb.
        apply list_elem_of_fmap in Hb. destruct Hb as (x & -> & Hx).
        apply list_elem_of_filter in Hx. destruct Hx as [Hne Hx].
        split; [split; [assumption | apply strip_idem] |].
        apply strip_keeps_out.
        pose proof (split_pieces_free comma line) as F.
        rewrite Forall_forall in F. now apply F. }
    apply Forall_and in S. destruct S as [S1 S2]. split; [exact S1 | auto].
Qed.

(** X2: the line of bullets is cut at every comma and nowhere else: there
    is one piece more than there are commas, no piece contains a comma,
    and the pieces joined by commas give the line back. *)
Theorem bullets_line_round_trip line :
  join_with comma (split comma line) = line /\
  Forall (fun piece => comma ∉ piece) (split comma line) /\
  length (split comma line)
  = S (length (filter (fun c => c = comma) line)).
Proof.
  split; [apply join_split |]. split; [apply split_pieces_free |].
  induction line as [|c s IH]; [reflexivity |]. simpl.
  rewrite filter_cons. destruct (N.eqb_spec c comma) as [-> | Hne].
  - rewrite decide_True by reflexivity. simpl. now rewrite IH.
  - rewrite decide_False by assumption.
    destruct (split comma s); simpl in *; [discriminate | assumption].
Qed.

(** ** The stages of a run, one failure at a time *)

Lemma audio_path_not_checkpoint p : audio_path p <> checkpoint.
Proof.
  unfold audio_path, checkpoint. rewrite join_output.
  destruct (startswith_char slash _); intros H; suffix_clash H.
Qed.

Lemma lookup_checkpoint_after_audio p resp w :
  fs_with_audio p resp w !! checkpoint = fs w !! checkpoint.
Proof. apply lookup_insert_ne, audio_path_not_checkpoint. Qed.

(** X3: when [generate_audio] returns, it returns the path it was given;
    the TTS service has answered 200, the file at that path holds the
    bytes of the answer, whatever was there before, every other file is as
    it was, and one answer of the service has been used. *)
Theorem audio_saved text path w r w' :
  generate_audio text path w = (Ok r, w') ->
  r = path /\
  exists resp rest,
    tts_answers w = resp :: rest /\
    status_code resp = 200 /\
    fs w' !! path = Some (RawBytes (content resp)) /\
    (forall q, q <> path -> fs w' !! q = fs w !! q) /\
    tts_answers w' = rest /\
    trace w' = trace w ++ [tts_request text; EvWrite path].
Proof.
  rewrite generate_audio_run.
  destruct (tts_answers w) as [|resp rest] eqn:Hq; [discriminate |].
  destruct (Z.eqb_spec (status_code resp) 200) as [Hs|]; [| discriminate].
  intros [= <- <-]. split; [reflexivity |]. exists resp, rest.
  split; [reflexivity |]. split; [exact Hs |]. simpl.
  split; [apply lookup_insert_eq |].
  split; [intros q Hne; now apply lookup_insert_ne |].
  now rewrite Hq.
Qed.

(** The first two stages of [generate_ad] when the service answers 200. *)
Lemma generate_ad_after_audio t b p w resp rest :
  tts_answers w = resp :: rest ->
  status_code resp = 200 ->
  generate_ad t b p w
  = bind (generate_lip_synced_video (audio_path p) SPOKESPERSON_IMAGE
            (lip_video_path p))
      (fun _ =>
         bind (VideoFileClip (lip_video_path p))
           (fun lip_clip =>
              bind (create_benefit_slides lip_clip b (lit "(561) 576-0801")
                      (final_output p))
                (fun _ => ret tt)))
      (after_audio t (audio_path p) (content resp) (logged (t, b, p) w)).
Proof.
  intros Hq Hs. unfold generate_ad. unfold bind at 1 2, log_call.
  rewrite generate_audio_run. cbn [tts_answers]. rewrite Hq.
  apply Z.eqb_eq in Hs. rewrite Hs. unfold logged. now rewrite Hq.
Qed.

(** X4: the checkpoint is looked for only after the speech has been
    synthesized.  When the service answers 200 and the checkpoint is
    missing, [generate_ad] raises [FileNotFoundError], the audio file of
    the run has been written and stays, and nothing else has happened. *)
Theorem checkpoint_checked_after_synthesis t b p w resp rest :
  tts_answers w = resp :: rest ->
  status_code resp = 200 ->
  fs w !! checkpoint = None ->
  exists w',
    generate_ad t b p w = (Raise missing_checkpoint, w') /\
    fs w' = fs_with_audio p resp w /\
    trace w' = trace w ++ [tts_request t; EvWrite (audio_path p)].
Proof.
  intros Hq Hs Hc. rewrite (generate_ad_after_audio _ _ _ _ _ _ Hq Hs).
  unfold bind at 1. rewrite generate_lip_synced_video_run.
  cbn [fs after_audio logged].
  change (<[audio_path p := RawBytes (content resp)]> (fs w))
    with (fs_with_audio p resp w).
  rewrite lookup_checkpoint_after_audio, Hc.
  eexists. split; [reflexivity |]. split; reflexivity.
Qed.

(** X5: when the speech is there and the checkpoint too, but Wav2Lip ends
    with a non-zero status, [generate_ad] raises [CalledProcessError] with
    that status and the command; the lip-synced clip is not opened and no
    video is encoded. *)
Theorem rendering_failure_stops_the_run t b p w resp rest o os :
  tts_answers w = resp :: rest ->
  status_code resp = 200 ->
  is_Some (fs w !! checkpoint) ->
  proc_outcomes w = o :: os ->
  returncode o <> 0 ->
  exists w',
    generate_ad t b p w
    = (Raise (CalledProcessError (returncode o) (render_cmd p)), w') /\
    fs w' = effect o (fs_with_audio p resp w) /\
    trace w'
    = trace w ++ [tts_request t; EvWrite (audio_path p); EvSpawn (render_cmd p)].
Proof.
  intros Hq Hs [d Hc] Ho Hr. rewrite (generate_ad_after_audio _ _ _ _ _ _ Hq Hs).
  unfold bind at 1. rewrite generate_lip_synced_video_run.
  cbn [fs proc_outcomes after_audio logged].
  change (<[audio_path p := RawBytes (content resp)]> (fs w))
    with (fs_with_audio p resp w).
  rewrite lookup_checkpoint_after_audio, Hc, Ho.
  apply Z.eqb_neq in Hr. rewrite Hr.
  eexists. split; [reflexivity |]. split; [reflexivity |].
  cbn. now rewrite <- app_assoc.
Qed.

(** X6: the exit status of Wav2Lip is not taken on trust.  When it is 0
    but the file that should hold the clip cannot be opened as a video,
    [generate_ad] raises when it opens it, and no video is encoded. *)
Theorem missing_clip_stops_the_run t b p w resp rest o os :
  tts_answers w = resp :: rest ->
  status_code resp = 200 ->
  is_Some (fs w !! checkpoint) ->
  proc_outcomes w = o :: os ->
  returncode o = 0 ->
  ~ is_video (effect o (fs_with_audio p resp w) !! lip_video_path p) ->
  exists w',
    generate_ad t b p w = (Raise (OSError (lip_video_path p)), w') /\
    fs w' = effect o (fs_with_audio p resp w) /\
    trace w'
    = trace w ++ [tts_request t; EvWrite (audio_path p);
                  EvSpawn (render_cmd p); EvOpenVideo (lip_video_path p)].
Proof.
  intros Hq Hs [d Hc] Ho Hr Hv.
  rewrite (generate_ad_after_audio _ _ _ _ _ _ Hq Hs).
  unfold bind at 1. rewrite generate_lip_synced_video_run.
  cbn [fs proc_outcomes after_audio logged].
  change (<[audio_path p := RawBytes (content resp)]> (fs w))
    with (fs_with_audio p resp w).
  rewrite lookup_checkpoint_after_audio, Hc, Ho.
  apply Z.eqb_eq in Hr. rewrite Hr.
  unfold bind at 1. unfold VideoFileClip, bind at 1, emit.
  cbn [fs after_spawn after_audio logged].
  change (<[audio_path p := RawBytes (content resp)]> (fs w))
    with (fs_with_audio p resp w).
  destruct (effect o (fs_with_audio p resp w) !! lip_video_path p)
    as [[data|s a|c fps]|]; simpl in Hv; try (exfalso; apply Hv; exact I);
    (eexists; split; [reflexivity |]; split; [reflexivity |];
     cbn; now rewrite <- !app_assoc).
Qed.

Lemma generate_ad_outcome t b p w :
  fst (generate_ad t b p w) = run_outcome p w.
Proof.
  unfold run_outcome, generate_ad. unfold bind at 1 2, log_call.
  rewrite generate_audio_run. cbn [tts_answers].
  destruct (tts_answers w) as [|resp rest]; [reflexivity |].
  destruct (status_code resp =? 200); [| reflexivity].
  unfold bind at 1. rewrite generate_lip_synced_video_run.
  cbn [fs proc_outcomes after_audio].
  change (<[audio_path p := RawBytes (content resp)]> (fs w))
    with (fs_with_audio p resp w).
  rewrite lookup_checkpoint_after_audio.
  destruct (fs w !! checkpoint); [| reflexivity].
  destruct (proc_outcomes w) as [|o os]; [reflexivity |].
  destruct (returncode o =? 0); [| reflexivity].
  unfold bind at 1. unfold VideoFileClip, bind at 1, emit.
  cbn [fs after_spawn after_audio].
  change (<[audio_path p := RawBytes (content resp)]> (fs w))
    with (fs_with_audio p resp w).
  destruct (effect o (fs_with_audio p resp w) !! lip_video_path p)
    as [[data|s a|c fps]|]; reflexivity.
Qed.

(** X7: a run of [generate_ad] succeeds only if the TTS service answers
    200, the checkpoint is installed, Wav2Lip ends with status 0 and the
    clip it was asked for can be opened as a video. *)
Theorem run_succeeds_only_if t b p w :
  fst (generate_ad t b p w) = Ok tt ->
  exists resp rest o os,
    tts_answers w = resp :: rest /\ status_code resp = 200 /\
    is_Some (fs w !! checkpoint) /\
    proc_outcomes w = o :: os /\ returncode o = 0 /\
    is_video (effect o (fs_with_audio p resp w) !! lip_video_path p).
Proof.
  rewrite generate_ad_outcome. unfold run_outcome.
  destruct (tts_answers w) as [|resp rest]; [discriminate |].
  destruct (Z.eqb_spec (status_code resp) 200) as [Hs|]; [| discriminate].
  destruct (fs w !! checkpoint) as [d|] eqn:Hc; [| discriminate].
  destruct (proc_outcomes w) as [|o os]; [discriminate |].
  destruct (Z.eqb_spec (returncode o) 0) as [Hr|]; [| discriminate].
  intros H. exists resp, rest, o, os. repeat split; eauto.
  destruct (effect o _ !! lip_video_path p) as [[]|]; try discriminate;
    exact I.
Qed.

(** X8: a run that succeeds went through its stages in order and once
    each: the request to the TTS service, the audio file, the Wav2Lip
    process, the opening of its clip, the encoding of the final video.  It
    used one answer of the service and one process, read nothing from
    standard input, and the final video is in place. *)
Theorem successful_run_stages t b p w w' :
  generate_ad t b p w = (Ok tt, w') ->
  (exists final,
      trace w'
      = trace w ++
        [tts_request t; EvWrite (audio_path p); EvSpawn (render_cmd p);
         EvOpenVideo (lip_video_path p); EvEncode (final_output p) final 24] /\
      fs w' !! final_output p = Some (EncodedVideo final 24)) /\
  tts_answers w' = tl (tts_answers w) /\
  proc_outcomes w' = tl (proc_outcomes w) /\
  stdin w' = stdin w.
Proof.
  intros R. split.
  - destruct (generate_ad_success _ _ _ _ _ R) as (s & a & F & T).
    eexists. split; [exact T | exact F].
  - pose proof (generate_ad_keeps_stdin t b p w) as Hin.
    rewrite R in Hin. simpl in Hin.
    cut (tts_answers w' = tl (tts_answers w) /\
         proc_outcomes w' = tl (proc_outcomes w)); [tauto |].
    revert R. unfold generate_ad. unfold bind at 1 2, log_call.
    rewrite generate_audio_run. cbn [tts_answers].
    destruct (tts_answers w) as [|resp rest]; [discriminate |].
    destruct (status_code resp =? 200); [| discriminate].
    unfold bind at 1. rewrite generate_lip_synced_video_run.
    destruct (fs _ !! checkpoint); [| discriminate].
    cbn [proc_outcomes after_audio].
    destruct (proc_outcomes w) as [|o os]; [discriminate |].
    destruct (returncode o =? 0); [| discriminate].
    unfold bind at 1. unfold VideoFileClip, bind at 1, emit.
    cbn [fs after_spawn after_audio].
    destruct (effect o _ !! lip_video_path p) as [[data|s a|c fps]|];
      try discriminate;
      unfold bind; rewrite create_benefit_slides_run; unfold ret;
      intros [= <-]; split; reflexivity.
Qed.

(** ** Where the artifacts go *)

(** X9: whatever the prefix, the three artifacts of a run have three
    different paths, and none of them is the model checkpoint, the
    portrait or the inference script: a run cannot write over its own
    inputs, nor one stage over another's artifact. *)
Theorem artifacts_apart_from_inputs p :
  NoDup (artifact_paths p) /\
  (checkpoint ∉ artifact_paths p) /\
  (SPOKESPERSON_IMAGE ∉ artifact_paths p) /\
  (lit "Wav2Lip/inference.py" ∉ artifact_paths p).
Proof.
  unfold artifact_paths, audio_path, lip_video_path, final_output,
    checkpoint, SPOKESPERSON_IMAGE.
  rewrite !join_output.
  replace (startswith_char slash (p ++ lit "_lip.mp4"))
    with (startswith_char slash (p ++ lit "_audio.wav"))
    by (destruct p; reflexivity).
  replace (startswith_char slash (p ++ lit "_final.mp4"))
    with (startswith_char slash (p ++ lit "_audio.wav"))
    by (destruct p; reflexivity).
  split; [| split; [| split]].
  - destruct (startswith_char slash _);
      repeat (constructor;
              [rewrite ?elem_of_cons;
               intros H; repeat (destruct H as [H | H]; [suffix_clash H |]);
               inversion H |]);
      constructor.
  - destruct (startswith_char slash _); rewrite !elem_of_cons;
      intros H; repeat (destruct H as [H | H]; [suffix_clash H |]);
      inversion H.
  - destruct (startswith_char slash _); rewrite !elem_of_cons;
      intros H; repeat (destruct H as [H | H]; [suffix_clash H |]);
      inversion H.
  - destruct (startswith_char slash _); rewrite !elem_of_cons;
      intros H; repeat (destruct H as [H | H]; [suffix_clash H |]);
      inversion H.
Qed.

(** X10: the artifacts are under [output/] when the prefix does not start
    with a slash; a prefix that starts with a slash takes them out of the
    output directory, to the prefix followed by the suffix. *)
Theorem artifacts_follow_the_prefix p :
  artifact_paths p
  = if startswith_char slash p
    then [p ++ lit "_audio.wav"; p ++ lit "_lip.mp4"; p ++ lit "_final.mp4"]
    else [lit "output/" ++ p ++ lit "_audio.wav";
          lit "output/" ++ p ++ lit "_lip.mp4";
          lit "output/" ++ p ++ lit "_final.mp4"].
Proof.
  unfold artifact_paths, audio_path, lip_video_path, final_output.
  rewrite !join_output. destruct p as [|c p]; [reflexivity |].
  simpl. destruct (N.eqb c slash); reflexivity.
Qed.

Ltac in_list :=
  solve [repeat first [apply list_elem_of_here | apply list_elem_of_further]].

Lemma menu_turn_events : grows trace menu_event menu_turn.
Proof.
  assert (G : forall t b p,
             p ∈ [lit "aca_ad"; lit "fe_ad"; lit "custom_ad"] ->
             grows trace menu_event (generate_ad t b p)).
  { intros t b p Hp.
    apply (grows_weaken trace (ad_event b p)); [| apply generate_ad_trace].
    assert (Hp' := Hp).
    rewrite !elem_of_cons in Hp'.
    intros [] He; simpl in *; try exact I;
      destruct Hp' as [-> | [-> | [-> | Hn]]]; try (now inversion Hn);
      try (destruct He as (-> & -> & _); split; [| reflexivity]);
      subst;
      try (eexists; split; [exact Hp |]; split; [reflexivity |]);
      vm_compute; in_list. }
  unfold menu_turn, show_menu.
  apply grows_bind; [apply keeps_grows; keeps_prim | intros choice].
  repeat case_bool_decide;
    repeat (apply grows_bind;
            [first [ apply G; in_list
                   | apply keeps_grows, input_keeps_trace ]
            | intros ? ]);
    grows_prim.
Qed.

(** X11: the menu writes to six files only, the audio and the final video
    of its three ads under [output/]; it has Wav2Lip render, and opens,
    the three clips beside them only; and it encodes at 24 frames per
    second. *)
Theorem menu_touches_its_files_only fuel w :
  exists new,
    trace (snd (main_loop fuel w)) = trace w ++ new /\
    Forall menu_event new.
Proof. apply main_loop_grows, menu_turn_events. Qed.

(** ** The composition as a whole *)

Lemma benefit_slides_duration vc bs ph m :
  clip_duration (Concat (map (benefit_clip vc) bs ++ [cta_clip vc ph]) m)
  = Some (3 * Z.of_nat (length bs) + 4).
Proof.
  induction bs as [|b bs IH]; [reflexivity |].
  simpl in *. rewrite IH. f_equal. lia.
Qed.

(** X12: the slide sequence of an ad lasts three seconds for each benefit
    bullet and four more for the call to action. *)
Theorem slides_last_3n_plus_4 vc bs ph :
  exists slides,
    final_clip vc bs ph = Concat [vc; slides] (lit "compose") /\
    segments slides = slide_clips vc bs ph /\
    clip_duration slides = Some (3 * Z.of_nat (length bs) + 4).
Proof.
  eexists. split; [reflexivity |]. split.
  - apply (segments_text_slides (slide_clips vc bs ph) (lit "compose")),
      slide_clips_text.
  - change (clip_duration (Concat (slide_clips vc bs ph) (lit "compose"))
            = Some (3 * Z.of_nat (length bs) + 4)).
    rewrite slide_clips_eq. apply benefit_slides_duration.
Qed.

Lemma clip_size_uniform (l : list Clip) m (s : Z * Z) :
  0 <= fst s -> 0 <= snd s -> l <> [] ->
  Forall (fun c => clip_size c = s) l ->
  clip_size (Concat l m) = s.
Proof.
  intros Hw Hh Hne F. destruct s as [sw sh]. simpl in *.
  induction F as [|c l Hc F IH]; [contradiction |].
  simpl. rewrite Hc. simpl.
  destruct l as [|c' l'].
  - simpl. f_equal; lia.
  - rewrite IH by discriminate. simpl. f_equal; lia.
Qed.

Lemma slide_clips_sizes vc bs ph :
  Forall (fun c => clip_size c = clip_size vc) (slide_clips vc bs ph).
Proof.
  rewrite slide_clips_eq. apply Forall_app. split.
  - apply Forall_forall. intros c Hc. apply list_elem_of_fmap in Hc.
    now destruct Hc as (b & -> & _).
  - repeat constructor.
Qed.

Lemma final_clip_size vc bs ph :
  0 <= fst (clip_size vc) ->
  0 <= snd (clip_size vc) ->
  clip_size (final_clip vc bs ph) = clip_size vc.
Proof.
  intros Hw Hh.
  unfold final_clip, concatenate_videoclips, set_audio.
  apply clip_size_uniform; try assumption; [discriminate |].
  constructor; [reflexivity |]. constructor; [| constructor].
  change (clip_size (Concat (slide_clips vc bs ph) (lit "compose"))
          = clip_size vc).
  apply clip_size_uniform; try assumption; [| apply slide_clips_sizes].
  rewrite slide_clips_eq. destruct (map _ bs); discriminate.
Qed.

(** X13: the composition has one frame size throughout: every slide has
    the size of the talking-head clip, and so has the final clip. *)
Theorem final_frame_size vc bs ph :
  0 <= fst (clip_size vc) ->
  0 <= snd (clip_size vc) ->
  Forall (fun c => clip_size c = clip_size vc) (slide_clips vc bs ph) /\
  clip_size (final_clip vc bs ph) = clip_size vc.
Proof.
  intros Hw Hh. split; [apply slide_clips_sizes |].
  now apply final_clip_size.
Qed.

Lemma final_frame_size_witness :
  let head := FileClip (lit "output/t1_lip.mp4") VIDEO_SIZE true in
  0 <= fst (clip_size head) /\ 0 <= snd (clip_size head) /\
  clip_size (final_clip head [lit "A"; lit "B"] (lit "555-1234")) = (720, 1280).
Proof.
  intros head.
  assert (Hw : 0 <= fst (clip_size head)) by (simpl; lia).
  assert (Hh : 0 <= snd (clip_size head)) by (simpl; lia).
  split; [exact Hw |]. split; [exact Hh |].
  exact (proj2 (final_frame_size head [lit "A"; lit "B"] (lit "555-1234") Hw Hh)).
Defined.

(** X14: the narration is heard twice.  When the talking-head clip has an
    audio track, the final clip plays it under the talking head and again,
    from its start, under the slides; when it has none, the final clip is
    silent. *)
Theorem narration_plays_twice vc bs ph :
  clip_audio (final_clip vc bs ph)
  = match clip_audio vc with
    | Some a => Some (CompositeAudio [a; a])
    | None => None
    end.
Proof.
  unfold final_clip, concatenate_videoclips, set_audio. simpl.
  destruct (clip_audio vc); reflexivity.
Qed.

(** ** The menu loop *)

Lemma menu_turn_head w l ls :
  stdin w = l :: ls ->
  menu_turn w
  = (if bool_decide (strip l = lit "1") then
       bind (generate_ad ACA_TEMPLATE ACA_BENEFITS (lit "aca_ad"))
         (fun _ => ret true)
     else if bool_decide (strip l = lit "2") then
       bind (generate_ad FE_TEMPLATE FE_BENEFITS (lit "fe_ad"))
         (fun _ => ret true)
     else if bool_decide (strip l = lit "3") then
       bind input (fun line =>
         bind input (fun line2 =>
           bind (generate_ad (strip line) (custom_benefits line2)
                   (lit "custom_ad"))
             (fun _ => ret true)))
     else if bool_decide (strip l = lit "4") then ret false
     else ret true) (with_stdin ls w).
Proof.
  intros Hin. unfold menu_turn, show_menu. unfold bind at 1 2.
  unfold input at 1. rewrite Hin. unfold ret at 1. reflexivity.
Qed.

(** X15: a line that selects none of the four options changes nothing:
    the turn ends, and the menu goes on as if the line had not been
    there. *)
Theorem invalid_choice_is_skipped l ls w :
  stdin w = l :: ls ->
  strip l ∉ [lit "1"; lit "2"; lit "3"; lit "4"] ->
  menu_turn w = (Ok true, with_stdin ls w) /\
  main w = main (with_stdin ls w).
Proof.
  intros Hin Hno.
  assert (T : menu_turn w = (Ok true, with_stdin ls w)).
  { rewrite (menu_turn_head _ _ _ Hin).
    repeat case_bool_decide; try reflexivity; exfalso; apply Hno;
      match goal with H : strip l = _ |- _ => rewrite H end; in_list. }
  split; [exact T |].
  unfold main. rewrite Hin.
  change (length (l :: ls)) with (S (length ls)).
  change (main_loop (S (S (length ls))) w)
    with (match menu_turn w with
          | (Ok true, w') => main_loop (S (length ls)) w'
          | (Ok false, w') => (Some (Ok tt), w')
          | (Raise e, w') => (Some (Raise e), w')
          end).
  rewrite T. reflexivity.
Qed.

Lemma invalid_choice_is_skipped_witness :
  let w := studio [lit "7"; lit "4"] [] [] in
  stdin w = [lit "7"; lit "4"] /\
  (strip (lit "7") ∉ [lit "1"; lit "2"; lit "3"; lit "4"]) /\
  main w = main (with_stdin [lit "4"] w) /\
  main w = (Some (Ok tt), with_stdin [] w).
Proof.
  intros w.
  assert (Hin : stdin w = [lit "7"; lit "4"]) by reflexivity.
  assert (Hno : strip (lit "7") ∉ [lit "1"; lit "2"; lit "3"; lit "4"]).
  { apply (bool_decide_unpack _). vm_compute. reflexivity. }
  split; [exact Hin |]. split; [exact Hno |].
  pose proof (proj2 (invalid_choice_is_skipped _ _ w Hin Hno)) as E.
  split; [exact E |]. rewrite E. reflexivity.
Defined.

(** X16: when standard input ends in the middle of the custom entry,
    before the script or before the bullets, the menu ends with
    [EOFError]; no ad is started: nothing has been asked of the TTS
    service and no file has been written. *)
Theorem custom_entry_cut_short l rest w :
  stdin w = l :: rest ->
  strip l = lit "3" ->
  (length rest < 2)%nat ->
  main w = (Some (Raise EOFError), with_stdin [] w).
Proof.
  intros Hin H3 Hlen. unfold main. rewrite Hin.
  change (length (l :: rest)) with (S (length rest)).
  change (main_loop (S (S (length rest))) w)
    with (match menu_turn w with
          | (Ok true, w') => main_loop (S (length rest)) w'
          | (Ok false, w') => (Some (Ok tt), w')
          | (Raise e, w') => (Some (Raise e), w')
          end).
  rewrite (menu_turn_head _ _ _ Hin).
  rewrite bool_decide_eq_false_2 by (rewrite H3; discriminate).
  rewrite bool_decide_eq_false_2 by (rewrite H3; discriminate).
  rewrite bool_decide_eq_true_2 by assumption.
  destruct rest as [|l2 [|l3 rest]]; simpl in Hlen; try lia; reflexivity.
Qed.

Lemma custom_entry_cut_short_witness :
  let w := studio [lit " 3"; lit "Call us today"] [tts_ok] [] in
  stdin w = [lit " 3"; lit "Call us today"] /\
  strip (lit " 3") = lit "3" /\
  (length [lit "Call us today"] < 2)%nat /\
  main w = (Some (Raise EOFError), with_stdin [] w).
Proof.
  intros w.
  assert (Hin : stdin w = [lit " 3"; lit "Call us today"]) by reflexivity.
  assert (H3 : strip (lit " 3") = lit "3") by reflexivity.
  assert (Hlen : (length [lit "Call us today"] < 2)%nat) by (simpl; lia).
  split; [exact Hin |]. split; [exact H3 |]. split; [exact Hlen |].
  exact (custom_entry_cut_short _ _ w Hin H3 Hlen).
Defined.

Lemma generate_ad_stdin_after t b p w r w' :
  generate_ad t b p w = (r, w') -> stdin w' = stdin w.
Proof.
  intros E. pose proof (generate_ad_keeps_stdin t b p w) as H.
  now rewrite E in H.
Qed.

(** The lines a turn of the menu reads are the first lines of standard
    input, and a turn that leaves the loop has read one line, a 4. *)
Lemma menu_turn_reads w r w' :
  menu_turn w = (r, w') ->
  exists used,
    stdin w = used ++ stdin w' /\
    (r = Ok false -> exists l, used = [l] /\ strip l = lit "4").
Proof.
  destruct (stdin w) as [|l ls] eqn:Hin.
  { unfold menu_turn, show_menu, bind, input. rewrite Hin.
    intros [= <- <-]. exists []. rewrite Hin. split; [reflexivity | discriminate]. }
  rewrite (menu_turn_head _ _ _ Hin).
  repeat case_bool_decide.
  - unfold bind. destruct (generate_ad _ _ _ _) as [[[]|e] w2] eqn:E;
      apply generate_ad_stdin_after in E; intros [= <- <-];
      exists [l]; rewrite E; (split; [reflexivity | discriminate]).
  - unfold bind. destruct (generate_ad _ _ _ _) as [[[]|e] w2] eqn:E;
      apply generate_ad_stdin_after in E; intros [= <- <-];
      exists [l]; rewrite E; (split; [reflexivity | discriminate]).
  - destruct ls as [|l2 [|l3 ls]].
    + intros [= <- <-]. exists [l]. split; [reflexivity | discriminate].
    + intros [= <- <-]. exists [l; l2]. split; [reflexivity | discriminate].
    + unfold bind at 1 2. unfold input. cbn [stdin with_stdin].
      unfold bind.
      destruct (generate_ad _ _ _ _) as [[[]|e] w2] eqn:E;
        apply generate_ad_stdin_after in E; intros [= <- <-];
        exists [l; l2; l3]; rewrite E; (split; [reflexivity | discriminate]).
  - intros [= <- <-]. exists [l]. split; [reflexivity | eauto].
  - intros [= <- <-]. exists [l]. split; [reflexivity | discriminate].
Qed.

Lemma main_loop_exit fuel w w' :
  main_loop fuel w = (Some (Ok tt), w') ->
  exists pre l, stdin w = pre ++ l :: stdin w' /\ strip l = lit "4".
Proof.
  revert w. induction fuel as [|fuel IH]; intros w; simpl; [discriminate |].
  destruct (menu_turn w) as [[[|]|e] w1] eqn:T; try discriminate.
  - intros R. destruct (menu_turn_reads _ _ _ T) as (used & E & _).
    destruct (IH _ R) as (pre & l & E' & H4).
    exists (used ++ pre), l. rewrite E, E', <- app_assoc. auto.
  - intros [= <-]. destruct (menu_turn_reads _ _ _ T) as (used & E & H).
    destruct (H eq_refl) as (l & -> & H4). exists [], l. auto.
Qed.

(** X17: on a finite standard input the menu always ends.  It ends
    normally only after reading a line that selects 4, and the lines
    after that one are left unread; otherwise it ends with an
    exception. *)
Theorem menu_loop_ends w :
  exists r w',
    main w = (Some r, w') /\
    match r with
    | Ok _ => exists pre l, stdin w = pre ++ l :: stdin w' /\ strip l = lit "4"
    | Raise _ => True
    end.
Proof.
  destruct (main_terminates w) as (r & Hr).
  destruct (main w) as [o w'] eqn:E. simpl in Hr. subst o.
  exists r, w'. split; [reflexivity |].
  destruct r as [[]|e]; [| exact I].
  apply (main_loop_exit _ _ _ E).
Qed.

(** X18: an ad that fails ends the program.  When option 1 or 2 is
    selected and the TTS service answers with a status other than 200,
    the menu ends with the TTS error; the lines that follow are not read
    and nothing has been done but the request. *)
Theorem failed_ad_ends_the_menu l ls w resp rest :
  stdin w = l :: ls ->
  strip l = lit "1" \/ strip l = lit "2" ->
  tts_answers w = resp :: rest ->
  status_code resp <> 200 ->
  exists w' narration,
    main w = (Some (Raise (tts_error resp)), w') /\
    stdin w' = ls /\
    fs w' = fs w /\
    trace w' = trace w ++ [tts_request narration] /\
    (narration = ACA_TEMPLATE \/ narration = FE_TEMPLATE).
Proof.
  intros Hin Hc Hq Hs. unfold main. rewrite Hin.
  change (length (l :: ls)) with (S (length ls)).
  change (main_loop (S (S (length ls))) w)
    with (match menu_turn w with
          | (Ok true, w') => main_loop (S (length ls)) w'
          | (Ok false, w') => (Some (Ok tt), w')
          | (Raise e, w') => (Some (Raise e), w')
          end).
  rewrite (menu_turn_head _ _ _ Hin).
  assert (Hq' : tts_answers (with_stdin ls w) = resp :: rest) by exact Hq.
  destruct Hc as [Hc | Hc].
  - rewrite bool_decide_eq_true_2 by assumption.
    unfold bind. rewrite (generate_ad_tts_failure _ _ _ _ _ _ Hq' Hs).
    eexists _, ACA_TEMPLATE. split; [reflexivity |]. repeat split. now left.
  - rewrite bool_decide_eq_false_2 by (rewrite Hc; discriminate).
    rewrite bool_decide_eq_true_2 by assumption.
    unfold bind. rewrite (generate_ad_tts_failure _ _ _ _ _ _ Hq' Hs).
    eexists _, FE_TEMPLATE. split; [reflexivity |]. repeat split. now right.
Qed.

Lemma failed_ad_ends_the_menu_witness :
  let w := studio [lit "2"; lit "1"; lit "4"] [tts_unauthorized; tts_ok] [] in
  stdin w = [lit "2"; lit "1"; lit "4"] /\
  (strip (lit "2") = lit "1" \/ strip (lit "2") = lit "2") /\
  tts_answers w = [tts_unauthorized; tts_ok] /\
  status_code tts_unauthorized <> 200 /\
  exists w' narration,
    main w = (Some (Raise (tts_error tts_unauthorized)), w') /\
    stdin w' = [lit "1"; lit "4"] /\
    fs w' = fs w /\
    trace w' = trace w ++ [tts_request narration] /\
    (narration = ACA_TEMPLATE \/ narration = FE_TEMPLATE).
Proof.
  intros w.
  assert (Hin : stdin w = [lit "2"; lit "1"; lit "4"]) by reflexivity.
  assert (Hc : strip (lit "2") = lit "1" \/ strip (lit "2") = lit "2")
    by (right; reflexivity).
  assert (Hq : tts_answers w = [tts_unauthorized; tts_ok]) by reflexivity.
  assert (Hs : status_code tts_unauthorized <> 200) by discriminate.
  split; [exact Hin |]. split; [exact Hc |]. split; [exact Hq |].
  split; [exact Hs |].
  exact (failed_ad_ends_the_menu _ _ w _ _ Hin Hc Hq Hs).
Defined.

(** ** Sample runs of the stages *)

Lemma audio_saved_witness :
  let w := studio [] [tts_ok] [] in
  let path := lit "output/t1_audio.wav" in
  let w' := snd (generate_audio (lit "Hello world") path w) in
  generate_audio (lit "Hello world") path w = (Ok path, w') /\
  fs w' !! path = Some (RawBytes [82; 73; 70; 70]%N) /\
  fs w' !! checkpoint = fs w !! checkpoint.
Proof.
  intros w path w'.
  assert (R : generate_audio (lit "Hello world") path w = (Ok path, w'))
    by (vm_compute; reflexivity).
  split; [exact R |].
  destruct (audio_saved _ _ _ _ _ R)
    as (_ & resp & rest & Hq & _ & F & O & _).
  injection Hq as <- <-.
  split; [exact F |]. apply O. discriminate.
Defined.

Lemma checkpoint_checked_after_synthesis_witness :
  let w := bare_studio [tts_ok] [wav2lip_ok (lit "t1")] in
  tts_answers w = [tts_ok] /\ status_code tts_ok = 200 /\
  fs w !! checkpoint = None /\
  exists w',
    generate_ad (lit "Hello world") [lit "A"; lit "B"] (lit "t1") w
    = (Raise missing_checkpoint, w') /\
    fs w' !! lit "output/t1_audio.wav" = Some (RawBytes [82; 73; 70; 70]%N).
Proof.
  intros w.
  assert (Hq : tts_answers w = [tts_ok]) by reflexivity.
  assert (Hs : status_code tts_ok = 200) by reflexivity.
  assert (Hc : fs w !! checkpoint = None) by reflexivity.
  split; [exact Hq |]. split; [exact Hs |]. split; [exact Hc |].
  destruct (checkpoint_checked_after_synthesis (lit "Hello world")
              [lit "A"; lit "B"] (lit "t1") w tts_ok [] Hq Hs Hc)
    as (w' & R & F & _).
  exists w'. split; [exact R |]. rewrite F. reflexivity.
Defined.

Lemma rendering_failure_stops_the_run_witness :
  let w := studio [] [tts_ok] [wav2lip_crash] in
  tts_answers w = [tts_ok] /\ status_code tts_ok = 200 /\
  is_Some (fs w !! checkpoint) /\
  proc_outcomes w = [wav2lip_crash] /\ returncode wav2lip_crash <> 0 /\
  exists w',
    generate_ad (lit "Hello world") [lit "A"; lit "B"] (lit "t1") w
    = (Raise (CalledProcessError 1 (render_cmd (lit "t1"))), w') /\
    fs w' !! final_output (lit "t1") = None.
Proof.
  intros w.
  assert (Hq : tts_answers w = [tts_ok]) by reflexivity.
  assert (Hs : status_code tts_ok = 200) by reflexivity.
  assert (Hc : is_Some (fs w !! checkpoint)) by (eexists; reflexivity).
  assert (Ho : proc_outcomes w = [wav2lip_crash]) by reflexivity.
  assert (Hr : returncode wav2lip_crash <> 0) by discriminate.
  split; [exact Hq |]. split; [exact Hs |]. split; [exact Hc |].
  split; [exact Ho |]. split; [exact Hr |].
  destruct (rendering_failure_stops_the_run (lit "Hello world")
              [lit "A"; lit "B"] (lit "t1") w tts_ok [] wav2lip_crash []
              Hq Hs Hc Ho Hr)
    as (w' & R & F & _).
  exists w'. split; [exact R |]. rewrite F. reflexivity.
Defined.

Lemma missing_clip_stops_the_run_witness :
  let w := studio [] [tts_ok] [wav2lip_idle] in
  tts_answers w = [tts_ok] /\ status_code tts_ok = 200 /\
  is_Some (fs w !! checkpoint) /\
  proc_outcomes w = [wav2lip_idle] /\ returncode wav2lip_idle = 0 /\
  ~ is_video (effect wav2lip_idle (fs_with_audio (lit "t1") tts_ok w)
                !! lip_video_path (lit "t1")) /\
  exists w',
    generate_ad (lit "Hello world") [lit "A"; lit "B"] (lit "t1") w
    = (Raise (OSError (lit "output/t1_lip.mp4")), w') /\
    fs w' !! final_output (lit "t1") = None.
Proof.
  intros w.
  assert (Hq : tts_answers w = [tts_ok]) by reflexivity.
  assert (Hs : status_code tts_ok = 200) by reflexivity.
  assert (Hc : is_Some (fs w !! checkpoint)) by (eexists; reflexivity).
  assert (Ho : proc_outcomes w = [wav2lip_idle]) by reflexivity.
  assert (Hr : returncode wav2lip_idle = 0) by reflexivity.
  assert (Hv : ~ is_video (effect wav2lip_idle
                             (fs_with_audio (lit "t1") tts_ok w)
                             !! lip_video_path (lit "t1")))
    by (intros H; exact H).
  split; [exact Hq |]. split; [exact Hs |]. split; [exact Hc |].
  split; [exact Ho |]. split; [exact Hr |]. split; [exact Hv |].
  destruct (missing_clip_stops_the_run (lit "Hello world")
              [lit "A"; lit "B"] (lit "t1") w tts_ok [] wav2lip_idle []
              Hq Hs Hc Ho Hr Hv)
    as (w' & R & F & _).
  exists w'. split; [exact R |]. rewrite F. reflexivity.
Defined.

Lemma successful_run_stages_witness :
  let w := studio [lit "4"] [tts_ok] [wav2lip_ok (lit "t1")] in
  let w' := snd (generate_ad (lit "Hello world") [lit "A"; lit "B"] (lit "t1") w) in
  generate_ad (lit "Hello world") [lit "A"; lit "B"] (lit "t1") w = (Ok tt, w') /\
  tts_answers w' = [] /\ proc_outcomes w' = [] /\ stdin w' = [lit "4"] /\
  length (trace w') = 5%nat.
Proof.
  intros w w'.
  assert (R : generate_ad (lit "Hello world") [lit "A"; lit "B"] (lit "t1") w
              = (Ok tt, w')) by (vm_compute; reflexivity).
  split; [exact R |].
  destruct (successful_run_stages _ _ _ _ _ R)
    as ((final & T & _) & Hq & Ho & Hin).
  split; [exact Hq |]. split; [exact Ho |]. split; [exact Hin |].
  rewrite T. reflexivity.
Defined.

(** ** What a run does, whatever its end *)

(** X19: no stage is tried twice.  Whatever the world, a run of
    [generate_ad] sends exactly one request to the TTS service and spawns
    at most one process. *)
Theorem one_request_one_process_per_run t b p w :
  exists new,
    trace (snd (generate_ad t b p w)) = trace w ++ new /\
    count_events is_post new = 1%nat /\
    (count_events is_spawn new <= 1)%nat.
Proof.
  unfold generate_ad. unfold bind at 1 2, log_call.
  rewrite generate_audio_run. cbn [tts_answers].
  destruct (tts_answers w) as [|resp rest];
    [eexists [_]; split; [reflexivity | split; [reflexivity | cbn; lia]] |].
  destruct (status_code resp =? 200);
    [| eexists [_]; split; [reflexivity | split; [reflexivity | cbn; lia]]].
  unfold bind at 1. rewrite generate_lip_synced_video_run.
  destruct (fs _ !! checkpoint);
    [| eexists [_; _]; split; [reflexivity | split; [reflexivity | cbn; lia]]].
  cbn [proc_outcomes after_audio].
  destruct (proc_outcomes w) as [|o os];
    [eexists [_; _; _]; split;
       [cbn; rewrite <- app_assoc; reflexivity
       | split; [reflexivity | cbn; lia]] |].
  destruct (returncode o =? 0);
    [| eexists [_; _; _]; split;
         [cbn; rewrite <- app_assoc; reflexivity
         | split; [reflexivity | cbn; lia]]].
  unfold bind at 1. unfold VideoFileClip, bind at 1, emit.
  cbn [fs after_spawn after_audio].
  destruct (effect o _ !! lip_video_path p) as [[data|s a|c fps]|];
    try (eexists [_; _; _; _]; split;
           [cbn; rewrite <- !app_assoc; reflexivity
           | split; [reflexivity | cbn; lia]]);
    unfold bind; rewrite create_benefit_slides_run; unfold ret;
    (eexists [_; _; _; _; _]; split;
       [cbn; rewrite <- !app_assoc; reflexivity
       | split; [reflexivity | cbn; lia]]).
Qed.

(** X20: the frame size of the final video is the one of the clip that
    Wav2Lip rendered, not a size the script sets.  When every stage
    succeeds and the rendered clip has size [s], the final video is the
    composition over that clip, it has size [s], and every other file is
    as the process left it. *)
Theorem rendered_clip_decides_the_frame t b p w resp rest o os s a :
  tts_answers w = resp :: rest ->
  status_code resp = 200 ->
  is_Some (fs w !! checkpoint) ->
  proc_outcomes w = o :: os ->
  returncode o = 0 ->
  effect o (fs_with_audio p resp w) !! lip_video_path p
  = Some (RenderedVideo s a) ->
  0 <= fst s -> 0 <= snd s ->
  exists w' final,
    generate_ad t b p w = (Ok tt, w') /\
    final = final_clip (FileClip (lip_video_path p) s a) b (lit "(561) 576-0801") /\
    fs w' !! final_output p = Some (EncodedVideo final 24) /\
    clip_size final = s /\
    (forall q, q <> final_output p ->
               fs w' !! q = effect o (fs_with_audio p resp w) !! q).
Proof.
  intros Hq Hs [d Hc] Ho Hr Hv Hw Hh.
  rewrite (generate_ad_after_audio _ _ _ _ _ _ Hq Hs).
  unfold bind at 1. rewrite generate_lip_synced_video_run.
  cbn [fs proc_outcomes after_audio logged].
  change (<[audio_path p := RawBytes (content resp)]> (fs w))
    with (fs_with_audio p resp w).
  rewrite lookup_checkpoint_after_audio, Hc, Ho.
  apply Z.eqb_eq in Hr. rewrite Hr.
  unfold bind at 1. unfold VideoFileClip, bind at 1, emit.
  cbn [fs after_spawn after_audio logged].
  change (<[audio_path p := RawBytes (content resp)]> (fs w))
    with (fs_with_audio p resp w).
  rewrite Hv. unfold bind. rewrite create_benefit_slides_run. unfold ret.
  eexists _, _. split; [reflexivity |]. split; [reflexivity |].
  cbn [fs]. split; [apply lookup_insert_eq |]. split.
  - apply (final_clip_size (FileClip (lip_video_path p) s a)); assumption.
  - intros q Hne. now apply lookup_insert_ne.
Qed.

Lemma rendered_clip_decides_the_frame_witness :
  let w := studio [] [tts_ok] [wav2lip_ok (lit "t1")] in
  tts_answers w = [tts_ok] /\ status_code tts_ok = 200 /\
  is_Some (fs w !! checkpoint) /\
  proc_outcomes w = [wav2lip_ok (lit "t1")] /\
  returncode (wav2lip_ok (lit "t1")) = 0 /\
  effect (wav2lip_ok (lit "t1")) (fs_with_audio (lit "t1") tts_ok w)
    !! lip_video_path (lit "t1")
  = Some (RenderedVideo (720, 1280) true) /\
  0 <= fst (720, 1280) /\ 0 <= snd (720, 1280) /\
  exists w' final,
    generate_ad (lit "Hello world") [lit "A"; lit "B"] (lit "t1") w = (Ok tt, w') /\
    fs w' !! final_output (lit "t1") = Some (EncodedVideo final 24) /\
    clip_size final = (720, 1280).
Proof.
  intros w.
  assert (Hq : tts_answers w = [tts_ok]) by reflexivity.
  assert (Hs : status_code tts_ok = 200) by reflexivity.
  assert (Hc : is_Some (fs w !! checkpoint)) by (eexists; reflexivity).
  assert (Ho : proc_outcomes w = [wav2lip_ok (lit "t1")]) by reflexivity.
  assert (Hr : returncode (wav2lip_ok (lit "t1")) = 0) by reflexivity.
  assert (Hv : effect (wav2lip_ok (lit "t1")) (fs_with_audio (lit "t1") tts_ok w)
                 !! lip_video_path (lit "t1")
               = Some (RenderedVideo (720, 1280) true))
    by (vm_compute; reflexivity).
  assert (Hw : 0 <= fst (720, 1280)) by (simpl; lia).
  assert (Hh : 0 <= snd (720, 1280)) by (simpl; lia).
  repeat (split; [assumption |]).
  destruct (rendered_clip_decides_the_frame (lit "Hello world")
              [lit "A"; lit "B"] (lit "t1") w _ _ _ _ _ _
              Hq Hs Hc Ho Hr Hv Hw Hh)
    as (w' & final & R & _ & F & Z & _).
  exists w', final. split; [exact R |]. split; [exact F | exact Z].
Defined.

(** ** The custom entry and its fallback *)




(** ** Path spellings and the files they name *)

Example normpath_dot_slash : normpath (lit "output/./a_audio.wav") = lit "output/a_audio.wav".
Proof. reflexivity. Qed.

Example normpath_parent : normpath (lit "output/x/../a//b/") = lit "output/a/b".
Proof. reflexivity. Qed.

Example normpath_root : normpath (lit "//tmp/../..") = lit "//".
Proof. reflexivity. Qed.








Lemma run_succeeds_only_if_witness :
  let w := studio [] [tts_ok] [wav2lip_ok (lit "t1")] in
  fst (generate_ad (lit "Hello world") [lit "A"; lit "B"] (lit "t1") w) = Ok tt /\
  exists resp rest o os,
    tts_answers w = resp :: rest /\ status_code resp = 200 /\
    is_Some (fs w !! checkpoint) /\
    proc_outcomes w = o :: os /\ returncode o = 0 /\
    is_video (effect o (fs_with_audio (lit "t1") resp w)
                !! lip_video_path (lit "t1")).
Proof.
  intros w.
  assert (R : fst (generate_ad (lit "Hello world") [lit "A"; lit "B"]
                     (lit "t1") w) = Ok tt)
    by (vm_compute; reflexivity).
  split; [exact R |].
  exact (run_succeeds_only_if _ _ _ _ R).
Defined.
